(** * bin2svf: HiSilicon D02 BIOS binary to SVF conversion

    A shallow embedding of [bin2svf.c] and the properties of its SVF
    generation engine: the bit reversals, the page pattern encoder, the
    command emitters, the page writers and [generate_svf].

    Conventions of the embedding:
    - [uint8_t] and [uint32_t] values are [Z], wrap-around written out with
      [u8] and [u32];
    - [size_t] values ([len], [blen], loop counters) are [nat]: the only
      subtractions on them are [len - blen] with [blen <= len] and
      [255 - i] with [i < 256], none of which wraps;
    - a buffer pointer is the list of the bytes found from the pointer on;
      [buf + n] is [drop n buf], the NULL pointer is [None];
    - the standard output is the text written so far; every [printf]
      appends to it. *)

From Stdlib Require Import ZArith String Ascii DecimalString Lia.
From stdpp Require Import base list.
From Equations Require Import Equations.

Local Open Scope Z_scope.

(** ** Machine integers *)

Definition u8 (x : Z) : Z := x mod 2 ^ 8.
Definition u32 (x : Z) : Z := x mod 2 ^ 32.

(** Byte order of the machine the tool runs on: it decides what [htonl]
    does and how a [uint32_t] lies in memory. *)
Inductive byte_order : Set := LittleEndian | BigEndian.

(** ** Constants of the source *)

Definition MODE_ERASE : Z := 0x1.
Definition MODE_WRITE : Z := 0x2.
Definition MODE_VERIFY : Z := 0x4.

Definition PAGE_OP_PROGRAM_TDI : Z := 0x40.
Definition PAGE_OP_VERIFY_TDI : Z := 0xc0.
Definition PAGE_OP_VERIFY_TDO : Z := 0x00.
Definition PAGE_OP_VERIFY_MASK : Z := 0x00.

(** [struct page_pattern]: [uint8_t data[256]] then [uint32_t addr_and_op]. *)
Record page_pattern : Set := PagePattern {
  data : list Z;
  addr_and_op : Z
}.

(** [enum chip_size], as the [int] values the enumerators stand for. *)
Definition SIZE_4MB : Z := 0.
Definition SIZE_8MB : Z := 1.
Definition SIZE_16MB : Z := 2.

Definition chip_size : Z := SIZE_16MB.

(** ** Standard output and process exit *)

Inductive outcome (A : Type) : Type :=
| Returns (a : A)
| Exits (status : Z).
Arguments Returns {A} a.
Arguments Exits {A} status.

(** A computation yields its outcome and the text it wrote. *)
Definition io (A : Type) : Type := (outcome A * string)%type.

#[export] Instance io_ret : MRet io := fun A a => (Returns a, EmptyString).

#[export] Instance io_bind : MBind io := fun A B f m =>
  match m with
  | (Returns a, w) => let '(r, w') := f a in (r, (w ++ w')%string)
  | (Exits c, w) => (Exits c, w)
  end.

Definition printf (s : string) : io unit := (Returns tt, s).
Definition exit {A : Type} (status : Z) : io A := (Exits status, EmptyString).

Definition stdout {A : Type} (m : io A) : string := snd m.
Definition result {A : Type} (m : io A) : outcome A := fst m.

(** ** Number formatting of [printf] *)

Definition newline : ascii := "010"%char.
Definition nl : string := String newline EmptyString.

Definition hex_digit (n : Z) : ascii :=
  match String.get (Z.to_nat n) "0123456789abcdef" with
  | Some c => c
  | None => "?"%char
  end.

(** [fmt_x n v] is the text of [printf("%0nx", v)] for [0 <= v < 16 ^ n]:
    exactly [n] lowercase hexadecimal digits. The source only uses [%02x]
    on a [uint8_t] and [%08x] on a [uint32_t]. *)
Fixpoint fmt_x (n : nat) (v : Z) : string :=
  match n with
  | O => EmptyString
  | S n' => (fmt_x n' (v / 16) ++ String (hex_digit (v mod 16)) EmptyString)%string
  end.

(** ** Bit reversal *)

(** [for (i = 0; i < 8; i++) res |= ((v >> i) & 1) << (7 - i);] with [res]
    a [uint8_t]. *)
Definition reverse_bits_8 (v : Z) : Z :=
  fold_left
    (fun res i => u8 (Z.lor res (Z.shiftl (Z.land (Z.shiftr v i) 1) (7 - i))))
    (Z.of_nat <$> seq 0 8) 0.

(** [for (i = 0; i < 32; i++) res |= ((v >> i) & 1) << (31 - i);] with
    [res] a [uint32_t]. *)
Definition reverse_bits_32 (v : Z) : Z :=
  fold_left
    (fun res i => u32 (Z.lor res (Z.shiftl (Z.land (Z.shiftr v i) 1) (31 - i))))
    (Z.of_nat <$> seq 0 32) 0.

(** ** Host byte order *)

Definition bswap32 (x : Z) : Z :=
  Z.lor (Z.lor (Z.lor (Z.shiftl (Z.land x 0xff) 24)
                      (Z.shiftl (Z.land x 0xff00) 8))
               (Z.land (Z.shiftr x 8) 0xff00))
        (Z.land (Z.shiftr x 24) 0xff).

(** The four bytes of a 32-bit value, most significant first. *)
Definition be_bytes (x : Z) : list Z :=
  [Z.land (Z.shiftr x 24) 0xff; Z.land (Z.shiftr x 16) 0xff;
   Z.land (Z.shiftr x 8) 0xff; Z.land x 0xff].

Definition htonl (host : byte_order) (x : Z) : Z :=
  match host with
  | BigEndian => x
  | LittleEndian => bswap32 x
  end.

(** The bytes of a [uint32_t] object, by increasing address. *)
Definition u32_object (host : byte_order) (x : Z) : list Z :=
  match host with
  | BigEndian => be_bytes x
  | LittleEndian => reverse (be_bytes x)
  end.

(** [(uint8_t * )&pattern]: the 260 bytes of the struct, [data] at offset
    0 and [addr_and_op] at offset 256. *)
Definition pattern_object (host : byte_order) (p : page_pattern) : list Z :=
  data p ++ u32_object host (addr_and_op p).

(** The contents of a [struct page_pattern] local before anything is
    stored in it. [create_page_pattern] overwrites all of it
    ([create_page_pattern_overwrites]), so the choice is immaterial. *)
Definition uninit_pattern : page_pattern :=
  {| data := replicate 256 0; addr_and_op := 0 |}.

(** ** Text of the output, as the properties read it *)

(** The lines of a text: what stands between its newline characters. *)
Fixpoint lines (s : string) : list string :=
  match s with
  | EmptyString => [EmptyString]
  | String c s' =>
      if Ascii.eqb c newline then EmptyString :: lines s'
      else match lines s' with
           | [] => [String c EmptyString]
           | l :: ls => String c l :: ls
           end
  end.

(** The lines that carry text; the blank lines between blocks are left out. *)
Definition emitted_lines (s : string) : list string :=
  List.filter (fun l => negb (String.eqb l EmptyString)) (lines s).

Definition first_line (s : string) : option string := head (emitted_lines s).
Definition final_line (s : string) : option string := last (emitted_lines s).

(** The rendering of a byte sequence that the specification words as
    "plain lowercase hex, two digits per byte, no separators": the digit of
    the high nibble, then the digit of the low nibble, byte after byte. *)
Definition hex_byte (b : Z) : string :=
  String (hex_digit (b / 16)) (String (hex_digit (b mod 16)) EmptyString).

Fixpoint hex_render (bytes : list Z) : string :=
  match bytes with
  | [] => EmptyString
  | b :: rest => (hex_byte b ++ hex_render rest)%string
  end.

Definition is_lower_hex (c : ascii) : bool :=
  existsb (Ascii.eqb c) (list_ascii_of_string "0123456789abcdef").

(** A rendering of [%G] for the runs evaluated below. For
    [0 <= ms < 1000000] the quotient [ms/1000] has at most six significant
    digits and lies in [0.001, 1000), where [%G] prints it in fixed
    notation without trailing zeros: [2] gives 0.002, [100] gives 0.1 and
    [250000] gives 250. *)
Definition dec (n : Z) : string := NilZero.string_of_uint (N.to_uint (Z.to_N n)).

Definition fmt_G_decimal (ms : Z) : string :=
  let r := ms mod 1000 in
  let d0 := if r mod 10 =? 0 then EmptyString else dec (r mod 10) in
  let d1 := if r mod 100 =? 0 then EmptyString
            else (dec (r / 10 mod 10) ++ d0)%string in
  let frac := if r =? 0 then EmptyString
              else ("." ++ dec (r / 100) ++ d1)%string in
  (dec (ms / 1000) ++ frac)%string.

(** Reading a dump back: the value of a lowercase hexadecimal digit, and
    the bytes of a text of such digits, two per byte. *)
Definition hex_value (c : ascii) : option Z :=
  match String.index 0 (String c EmptyString) "0123456789abcdef" with
  | Some n => Some (Z.of_nat n)
  | None => None
  end.

Fixpoint unhex (s : string) : option (list Z) :=
  match s with
  | EmptyString => Some []
  | String _ EmptyString => None
  | String hi (String lo rest) =>
      match hex_value hi, hex_value lo, unhex rest with
      | Some h, Some l, Some bytes => Some (16 * h + l :: bytes)
      | _, _, _ => None
      end
  end.

(** The four bytes of a 32-bit value, least significant first. *)
Definition le_bytes (x : Z) : list Z := reverse (be_bytes x).

Section Engine.

(** The machine the tool is compiled for. *)
Variable host : byte_order.

(** [fmt_G ms] is the text that [printf("%G", (float)ms/1000)] writes for
    the [int] [ms]. Floating point and the C library's rendering of it are
    outside this development: the engine is verified for every such
    rendering. *)
Variable fmt_G : Z -> string.

(** ** Hexadecimal dump *)

(** [for (i = 0; i < len; i++) printf("%02x", buf[i]);] *)
Definition hexdump (buf : list Z) (len : nat) (uppercase : bool) : io unit :=
  fold_left (fun m i => m ;; printf (fmt_x 2 (buf !!! i))) (seq 0 len) (mret tt).

(** ** Page pattern encoder *)

(** The pattern is filled in place, so the embedding takes the struct as it
    was and returns it as it is left, with the [int] result. Callers keep
    [len <= 256]; [buf], when not NULL, holds at least [len] bytes. *)
Definition create_page_pattern (pattern : page_pattern) (buf : option (list Z))
    (len : nat) (page_addr op : Z) : page_pattern * Z :=
  let len := match buf with None => O | Some _ => len end in
  let bytes := default [] buf in
  let data1 :=
    fold_left (fun d i => <[(255 - i)%nat := reverse_bits_8 (bytes !!! i)]> d)
              (seq 0 len) (data pattern) in
  let data2 :=
    fold_left (fun d i => <[(255 - i)%nat := 0xff]> d)
              (seq len (256 - len)) data1 in
  let addr :=
    if (op =? PAGE_OP_VERIFY_TDO) || (op =? PAGE_OP_VERIFY_MASK)
    then 0
    else htonl host (reverse_bits_32 page_addr) in
  ({| data := data2; addr_and_op := Z.lor addr (htonl host op) |}, 0).

(** ** Command emitters *)

Definition erase_time (size : Z) : io Z :=
  if size =? SIZE_4MB then mret 80000
  else if size =? SIZE_8MB then mret 160000
  else if size =? SIZE_16MB then mret 250000
  else printf ("Unsupported chip size" ++ nl) ;; exit 1.

Definition trst (on : Z) : io unit :=
  printf ("TRST " ++ (if on =? 0 then "OFF" else "ON") ++ ";" ++ nl ++ nl).

Definition set_frequency : io unit :=
  printf ("FREQUENCY 5.00e+006 HZ;" ++ nl ++ nl).

Definition write_enable : io unit :=
  printf ("! Write enable" ++ nl) ;;
  printf ("SDR 8 TDI(60);" ++ nl ++ nl).

Definition write_disable : io unit :=
  printf ("! Write disable" ++ nl) ;;
  printf ("SDR 8 TDI(20);" ++ nl ++ nl).

Definition wait (ms : Z) : io unit :=
  printf ("RUNTEST IDLE " ++ fmt_G ms ++ " SEC ENDSTATE IDLE;" ++ nl ++ nl).

Definition clear_software_protect : io unit :=
  printf ("! Clear software protect" ++ nl) ;;
  printf ("SDR 16 TDI(0080);" ++ nl ++ nl).

Definition check_no_software_protect : io unit :=
  printf ("! Check no software protect" ++ nl) ;;
  printf ("SDR 16 TDI(ffa0) TDO(c6ff) MASK(3900);" ++ nl ++ nl).

Definition check_status : io unit :=
  printf ("! Check status" ++ nl) ;;
  printf ("SDR 16 TDI(ffa0) TDO(0000) MASK(8000);" ++ nl ++ nl).

Definition bulk_erase : io unit :=
  printf ("! Bulk erase" ++ nl) ;;
  printf ("SDR 8 TDI(e3);" ++ nl ++ nl).

(** ** Page operation writers *)

Definition send_page_program (buf : list Z) (len : nat) (addr : Z) : io Z :=
  let pattern := uninit_pattern in
  let '(pattern, rc) :=
    create_page_pattern pattern (Some buf) len addr PAGE_OP_PROGRAM_TDI in
  if rc <? 0 then mret rc else
  write_enable ;;
  printf ("! Program page: 0x" ++ fmt_x 8 addr ++ nl) ;;
  printf "SDR 2080 TDI (" ;;
  hexdump (pattern_object host pattern) 260 false ;;
  printf (");" ++ nl ++ nl) ;;
  write_disable ;;
  wait 2 ;;
  mret 0.

Definition send_page_verify (buf : list Z) (len : nat) (addr : Z) : io Z :=
  let pattern := uninit_pattern in
  let '(pattern, rc) :=
    create_page_pattern pattern None 0 addr PAGE_OP_VERIFY_TDI in
  if rc <? 0 then mret rc else
  printf ("! Verify page: 0x" ++ fmt_x 8 addr ++ nl) ;;
  printf "SDR 2080 TDI (" ;;
  hexdump (pattern_object host pattern) 260 true ;;
  printf (")" ++ nl) ;;
  let '(pattern, rc) :=
    create_page_pattern pattern (Some buf) len addr PAGE_OP_VERIFY_TDO in
  if rc <? 0 then mret rc else
  printf "TDO (" ;;
  hexdump (pattern_object host pattern) 260 false ;;
  printf (")" ++ nl) ;;
  let '(pattern, rc) :=
    create_page_pattern pattern None 0 addr PAGE_OP_VERIFY_MASK in
  if rc <? 0 then mret rc else
  printf "MASK (" ;;
  hexdump (pattern_object host pattern) 260 true ;;
  printf (");" ++ nl) ;;
  mret 0.

(** ** Orchestrator *)

(** The scan of [generate_svf] for a byte other than 0xFF, started at index
    [i] with [n] iterations left and [all_ones = 1]:
    [for (int i = 0; i < blen; i++) if (buf[i] != 0xFF) { all_ones = 0; break; }] *)
Fixpoint scan_all_ones (buf : list Z) (i n : nat) : Z :=
  match n with
  | O => 1
  | S n' => if negb (buf !!! i =? 0xFF) then 0 else scan_all_ones buf (S i) n'
  end.

(** How one execution of the loop body ends. [rc] is [None] as long as the
    [int rc] local, which has no initialiser, was never assigned.
    [programmed] and [verified] are not C variables: they record whether
    [send_page_program] and [send_page_verify] were called. *)
Record body_end : Set := BodyEnd {
  end_goto_out : bool;
  end_rc : option Z;
  end_written : Z;
  end_programmed : bool;
  end_verified : bool
}.

(** The body of the [do ... while (len)] loop, up to the update of [len],
    [buf] and [addr]. *)
Definition page_body (buf : list Z) (blen : nat) (addr mode : Z)
    (rc : option Z) : io body_end :=
  let all_ones := scan_all_ones buf 0 blen in
  let written := 0 in
  e ← (if negb (Z.land mode MODE_WRITE =? 0) then
         if (Z.land mode MODE_ERASE =? 0) || (all_ones =? 0) then
           r ← send_page_program buf blen addr;
           if r <? 0 then mret (BodyEnd true (Some r) written true false)
           else mret (BodyEnd false (Some r) 1 true false)
         else mret (BodyEnd false rc written false false)
       else mret (BodyEnd false rc written false false));
  if end_goto_out e then mret e else
  if negb (Z.land mode MODE_VERIFY =? 0)
     || (negb (Z.land mode MODE_WRITE =? 0) && negb (end_written e =? 0)) then
    r ← send_page_verify buf blen addr;
    if r <? 0 then mret (BodyEnd true (Some r) (end_written e) (end_programmed e) true)
    else mret (BodyEnd false (Some r) (end_written e) (end_programmed e) true)
  else mret e.

(** One execution of the loop body, as the trace of a run records it. *)
Record iteration : Set := Iteration {
  it_addr : Z;
  it_blen : nat;
  it_programmed : bool;
  it_verified : bool
}.

(** How the loop ends: by falling out of [while (len)] ([completed]) or by
    [goto out], with the value of [rc] and the iterations executed. The
    trace is not C state. *)
Record loop_end : Set := LoopEnd {
  completed : bool;
  loop_rc : option Z;
  trace : list iteration
}.

Definition record_iteration (it : iteration) (e : loop_end) : loop_end :=
  LoopEnd (completed e) (loop_rc e) (it :: trace e).

(** [do { ... len -= blen; buf += blen; addr += blen; } while (len);] *)
Equations? page_loop (buf : list Z) (len : nat) (addr mode : Z)
    (rc0 : option Z) : io loop_end by wf len lt :=
  page_loop buf len addr mode rc0 :=
    let blen := if (len <? 256)%nat then len else 256%nat in
    e ← page_body buf blen addr mode rc0;
    let it := Iteration addr blen (end_programmed e) (end_verified e) in
    if end_goto_out e then mret (LoopEnd false (end_rc e) [it]) else
    match decide (len - blen = 0)%nat with
    | left _ => mret (LoopEnd true (end_rc e) [it])
    | right _ =>
        r ← page_loop (drop blen buf) (len - blen)%nat
                       (u32 (addr + Z.of_nat blen)) mode (end_rc e);
        mret (record_iteration it r)
    end.
Proof. subst blen. destruct (len <? 256)%nat; lia. Qed.

(** [generate_svf], returning the trace of the page loop besides [rc]. *)
Definition generate_svf_run (buf : list Z) (len : nat) (addr mode : Z) :
    io loop_end :=
  trst 0 ;;
  set_frequency ;;
  write_enable ;;
  clear_software_protect ;;
  write_disable ;;
  wait 100 ;;
  check_no_software_protect ;;
  (if negb (Z.land mode MODE_ERASE =? 0) then
     write_enable ;;
     bulk_erase ;;
     write_disable ;;
     (ms ← erase_time chip_size; wait ms) ;;
     check_status
   else mret tt) ;;
  e ← page_loop buf len addr mode None;
  if completed e then trst 1 ;; mret e else mret e.

Definition generate_svf (buf : list Z) (len : nat) (addr mode : Z) :
    io (option Z) :=
  e ← generate_svf_run buf len addr mode; mret (loop_rc e).


(** ** The patterns of the page writers *)

(** The struct that [send_page_program] dumps, and the three that
    [send_page_verify] dumps after [TDI (], [TDO (] and [MASK (]: each call
    of [create_page_pattern] fills the same local again. *)
Definition program_pattern (buf : list Z) (len : nat) (addr : Z) : page_pattern :=
  (create_page_pattern uninit_pattern (Some buf) len addr PAGE_OP_PROGRAM_TDI).1.

Definition verify_tdi_pattern (addr : Z) : page_pattern :=
  (create_page_pattern uninit_pattern None 0 addr PAGE_OP_VERIFY_TDI).1.

Definition verify_tdo_pattern (buf : list Z) (len : nat) (addr : Z) : page_pattern :=
  (create_page_pattern (verify_tdi_pattern addr) (Some buf) len addr
     PAGE_OP_VERIFY_TDO).1.

Definition verify_mask_pattern (buf : list Z) (len : nat) (addr : Z) : page_pattern :=
  (create_page_pattern (verify_tdo_pattern buf len addr) None 0 addr
     PAGE_OP_VERIFY_MASK).1.

(** A computation that returns [a] after writing [w]. *)
Definition runs {A : Type} (m : io A) (a : A) (w : string) : Prop :=
  m = (Returns a, w).

Definition byte_range (b : Z) : Prop := 0 <= b < 256.

(** A struct of the right size that holds bytes. *)
Definition pattern_ok (p : page_pattern) : Prop :=
  length (data p) = 256%nat /\ Forall byte_range (data p).

(** ** What the page loop does, page by page *)

(** The conditions under which the loop body calls [send_page_program] and
    [send_page_verify] on a page: those of its [if] statements, with
    [written] set exactly when the program step ran. *)
Definition page_programs (mode : Z) (buf : list Z) (blen : nat) : bool :=
  negb (Z.land mode MODE_WRITE =? 0)
  && ((Z.land mode MODE_ERASE =? 0) || (scan_all_ones buf 0 blen =? 0)).

Definition page_verifies (mode : Z) (buf : list Z) (blen : nat) : bool :=
  negb (Z.land mode MODE_VERIFY =? 0) || page_programs mode buf blen.

(** An iteration in which a program or a verify step ran. *)
Definition ran (it : iteration) : bool := it_programmed it || it_verified it.

(** What the [i]-th execution of the loop body works on, for a run that
    started with [buf], [len] and [addr]. *)
Definition iteration_ok (mode : Z) (buf : list Z) (len : nat) (addr : Z)
    (i : nat) (it : iteration) : Prop :=
  it_blen it = Nat.min (len - 256 * i) 256 /\
  it_addr it = u32 (addr + 256 * Z.of_nat i) /\
  it_programmed it = page_programs mode (drop (256 * i) buf) (it_blen it) /\
  it_verified it = page_verifies mode (drop (256 * i) buf) (it_blen it).

(** The text of the iterations of a trace, [buf] being the buffer pointer
    at the first of them. *)
Fixpoint trace_text (buf : list Z) (tr : list iteration) : string :=
  match tr with
  | [] => EmptyString
  | it :: tr' =>
      ((if it_programmed it
        then stdout (send_page_program buf (it_blen it) (it_addr it))
        else EmptyString) ++
       (if it_verified it
        then stdout (send_page_verify buf (it_blen it) (it_addr it))
        else EmptyString) ++
       trace_text (drop (it_blen it) buf) tr')%string
  end.

(** The text [generate_svf] writes between the first [trst] and the erase
    phase, and the text of the erase phase. *)
Definition setup_text : string :=
  stdout (set_frequency ;; write_enable ;; clear_software_protect ;;
          write_disable ;; wait 100 ;; check_no_software_protect).

Definition erase_text : string :=
  stdout (write_enable ;; bulk_erase ;; write_disable ;;
          (ms ← erase_time chip_size; wait ms) ;; check_status).

(** A text that is empty or ends with a newline. *)
Fixpoint ends_with_newline (s : string) : bool :=
  match s with
  | EmptyString => false
  | String c EmptyString => Ascii.eqb c newline
  | String _ s' => ends_with_newline s'
  end.

Definition nl_terminated (s : string) : Prop :=
  s = EmptyString \/ ends_with_newline s = true.

(** ** Bit reversal, as one loop *)

(** The loop shared by the two reversals, over [w] bits, after [k]
    iterations. *)
Definition rev_loop (w v : Z) (k : nat) : Z :=
  fold_left
    (fun res i => (Z.lor res (Z.shiftl (Z.land (Z.shiftr v i) 1) (w - 1 - i))) mod 2 ^ w)
    (Z.of_nat <$> seq 0 k) 0.

(** * Properties *)

(** ** Bit reversal *)

Lemma testbit_1 (m : Z) : Z.testbit 1 m = (m =? 0).
Proof.
  destruct (Z.eqb_spec m 0) as [->|Hm]; [reflexivity|].
  destruct (Z.lt_ge_cases m 0) as [Hneg|Hpos].
  - apply Z.testbit_neg_r; exact Hneg.
  - change 1 with (2 ^ 0). apply Z.pow2_bits_false. lia.
Qed.

Lemma rev_loop_testbit (w v : Z) (k : nat) (j : Z) :
  0 < w -> 0 <= j ->
  Z.testbit (rev_loop w v k) j =
  (j <? w) && (w - 1 - j <? Z.of_nat k) && Z.testbit v (w - 1 - j).
Proof.
  intros Hw Hj. unfold rev_loop. induction k as [|k IH].
  - simpl. rewrite Z.bits_0.
    destruct (j <? w) eqn:E; simpl; [|reflexivity].
    apply Z.ltb_lt in E.
    destruct (Z.ltb_spec (w - 1 - j) (Z.of_nat 0)); [lia|reflexivity].
  - rewrite seq_S, fmap_app, fold_left_app. simpl.
    rewrite Z.testbit_mod_pow2 by lia. rewrite Z.lor_spec, IH.
    rewrite Z.shiftl_spec by lia. rewrite Z.land_spec, testbit_1.
    destruct (Z.ltb_spec j w) as [Hjw|Hjw]; simpl; [|reflexivity].
    destruct (Z.eqb_spec (j - (w - 1 - Z.of_nat k)) 0) as [He|He].
    + rewrite He, Z.shiftr_spec by lia. simpl.
      replace (w - 1 - j) with (Z.of_nat k) by lia.
      rewrite Z.ltb_irrefl. simpl.
      rewrite Bool.andb_true_r.
      destruct (Z.ltb_spec (Z.of_nat k) (Z.of_nat (S k))); [reflexivity|lia].
    + rewrite Bool.andb_false_r, Bool.orb_false_r.
      destruct (Z.ltb_spec (w - 1 - j) (Z.of_nat k)),
        (Z.ltb_spec (w - 1 - j) (Z.of_nat (S k)));
        try reflexivity; lia.
Qed.

Lemma reverse_bits_8_loop (v : Z) : reverse_bits_8 v = rev_loop 8 v 8.
Proof.
  unfold reverse_bits_8, rev_loop, u8. change (8 - 1) with 7. reflexivity.
Qed.

Lemma reverse_bits_32_loop (v : Z) : reverse_bits_32 v = rev_loop 32 v 32.
Proof.
  unfold reverse_bits_32, rev_loop, u32. change (32 - 1) with 31. reflexivity.
Qed.

Lemma reverse_bits_8_testbit (v j : Z) :
  0 <= j -> Z.testbit (reverse_bits_8 v) j = (j <? 8) && Z.testbit v (7 - j).
Proof.
  intros Hj. rewrite reverse_bits_8_loop, rev_loop_testbit by lia.
  change (8 - 1 - j) with (7 - j).
  destruct (Z.ltb_spec j 8); simpl; [|reflexivity].
  destruct (Z.ltb_spec (7 - j) (Z.of_nat 8)); [reflexivity|lia].
Qed.

Lemma reverse_bits_32_testbit (v j : Z) :
  0 <= j -> Z.testbit (reverse_bits_32 v) j = (j <? 32) && Z.testbit v (31 - j).
Proof.
  intros Hj. rewrite reverse_bits_32_loop, rev_loop_testbit by lia.
  change (32 - 1 - j) with (31 - j).
  destruct (Z.ltb_spec j 32); simpl; [|reflexivity].
  destruct (Z.ltb_spec (31 - j) (Z.of_nat 32)); [reflexivity|lia].
Qed.

Lemma testbit_above (w v j : Z) :
  0 <= w -> 0 <= v < 2 ^ w -> w <= j -> Z.testbit v j = false.
Proof.
  intros Hw Hv Hj. rewrite <- (Z.mod_small v (2 ^ w)) by exact Hv.
  apply Z.mod_pow2_bits_high. lia.
Qed.

Lemma rev_loop_range (w v : Z) (k : nat) : 0 < w -> 0 <= rev_loop w v k < 2 ^ w.
Proof.
  intros Hw. unfold rev_loop. destruct k as [|k].
  - simpl. split; [lia|apply Z.pow_pos_nonneg; lia].
  - rewrite seq_S, fmap_app, fold_left_app. simpl.
    apply Z.mod_pos_bound, Z.pow_pos_nonneg; lia.
Qed.

Lemma reverse_bits_8_range (v : Z) : 0 <= reverse_bits_8 v < 256.
Proof. rewrite reverse_bits_8_loop. apply (rev_loop_range 8 v 8). lia. Qed.

Lemma reverse_bits_32_range (v : Z) : 0 <= reverse_bits_32 v < 2 ^ 32.
Proof. rewrite reverse_bits_32_loop. apply (rev_loop_range 32 v 32). lia. Qed.

(** C8: reversing the bits twice gives the value back, for every 8-bit
    value under [reverse_bits_8] and every 32-bit value under
    [reverse_bits_32]. *)
Theorem reverse_bits_involutive (v w : Z) :
  0 <= v < 2 ^ 8 -> 0 <= w < 2 ^ 32 ->
  reverse_bits_8 (reverse_bits_8 v) = v /\
  reverse_bits_32 (reverse_bits_32 w) = w.
Proof.
  intros Hv Hw. split; apply Z.bits_inj'; intros j Hj.
  - rewrite !reverse_bits_8_testbit by lia.
    destruct (Z.ltb_spec j 8) as [Hlt|Hge]; simpl.
    + rewrite reverse_bits_8_testbit by lia.
      destruct (Z.ltb_spec (7 - j) 8); [|lia]. simpl. f_equal. lia.
    + symmetry. apply (testbit_above 8); [lia|exact Hv|exact Hge].
  - rewrite !reverse_bits_32_testbit by lia.
    destruct (Z.ltb_spec j 32) as [Hlt|Hge]; simpl.
    + rewrite reverse_bits_32_testbit by lia.
      destruct (Z.ltb_spec (31 - j) 32); [|lia]. simpl. f_equal. lia.
    + symmetry. apply (testbit_above 32); [lia|exact Hw|exact Hge].
Qed.


(** ** Host byte order *)

Ltac split_ranges :=
  repeat match goal with
         | |- context [Z.ltb ?a ?b] => destruct (Z.ltb_spec a b)
         | |- context [Z.leb ?a ?b] => destruct (Z.leb_spec a b)
         end.

Lemma shiftl_testbit (a n m : Z) :
  0 <= n -> Z.testbit (Z.shiftl a n) m = Z.testbit a (m - n).
Proof.
  intros Hn. destruct (Z.lt_ge_cases m 0) as [Hm|Hm].
  - rewrite !Z.testbit_neg_r by lia. reflexivity.
  - apply Z.shiftl_spec. exact Hm.
Qed.

Lemma shiftr_testbit (a n m : Z) :
  Z.testbit (Z.shiftr a n) m = (0 <=? m) && Z.testbit a (m + n).
Proof.
  destruct (Z.leb_spec 0 m) as [Hm|Hm]; simpl.
  - apply Z.shiftr_spec. exact Hm.
  - apply Z.testbit_neg_r. exact Hm.
Qed.

Lemma testbit_ff (m : Z) : Z.testbit 0xff m = (0 <=? m) && (m <? 8).
Proof. change 0xff with (Z.ones 8). apply Z.testbit_ones. lia. Qed.

Lemma testbit_ff00 (m : Z) : Z.testbit 0xff00 m = (8 <=? m) && (m <? 16).
Proof.
  change 0xff00 with (Z.shiftl (Z.ones 8) 8).
  rewrite shiftl_testbit, Z.testbit_ones by lia.
  split_ranges; try reflexivity; lia.
Qed.

Ltac bits_norm :=
  repeat first
    [ rewrite Z.lor_spec | rewrite Z.land_spec
    | rewrite shiftl_testbit by lia | rewrite shiftr_testbit
    | rewrite testbit_ff | rewrite testbit_ff00 ].

Ltac bits_done :=
  split_ranges; try lia; simpl;
  rewrite ?Bool.andb_false_r, ?Bool.andb_true_r, ?Bool.orb_false_r;
  simpl; try reflexivity; try (f_equal; lia).

Lemma bswap32_testbit (x j : Z) :
  0 <= j ->
  Z.testbit (bswap32 x) j =
  if j <? 8 then Z.testbit x (j + 24)
  else if j <? 16 then Z.testbit x (j + 8)
  else if j <? 24 then Z.testbit x (j - 8)
  else if j <? 32 then Z.testbit x (j - 24)
  else false.
Proof.
  intros Hj. unfold bswap32. bits_norm. bits_done.
Qed.

Lemma bswap32_land (a b : Z) :
  bswap32 (Z.land a b) = Z.land (bswap32 a) (bswap32 b).
Proof.
  apply Z.bits_inj'. intros j Hj.
  rewrite Z.land_spec, !bswap32_testbit by exact Hj.
  split_ranges; rewrite ?Z.land_spec; reflexivity.
Qed.

Lemma bswap32_lor (a b : Z) :
  bswap32 (Z.lor a b) = Z.lor (bswap32 a) (bswap32 b).
Proof.
  apply Z.bits_inj'. intros j Hj.
  rewrite Z.lor_spec, !bswap32_testbit by exact Hj.
  split_ranges; rewrite ?Z.lor_spec; reflexivity.
Qed.

Lemma htonl_land (a b : Z) :
  htonl host (Z.land a b) = Z.land (htonl host a) (htonl host b).
Proof. destruct host; simpl; [apply bswap32_land|reflexivity]. Qed.

Lemma htonl_lor (a b : Z) :
  htonl host (Z.lor a b) = Z.lor (htonl host a) (htonl host b).
Proof. destruct host; simpl; [apply bswap32_lor|reflexivity]. Qed.

Lemma htonl_0 : htonl host 0 = 0.
Proof. destruct host; reflexivity. Qed.

Lemma byte_of_bswap32 (x k : Z) :
  k = 0 \/ k = 8 \/ k = 16 \/ k = 24 ->
  Z.land (Z.shiftr (bswap32 x) k) 0xff = Z.land (Z.shiftr x (24 - k)) 0xff.
Proof.
  intros Hk. apply Z.bits_inj'. intros j Hj. bits_norm.
  destruct (Z.leb_spec 0 j); [simpl|lia].
  destruct (Z.ltb_spec j 8); [|rewrite !Bool.andb_false_r; reflexivity].
  rewrite bswap32_testbit by lia.
  destruct Hk as [->|[->|[->| ->]]]; bits_done.
Qed.

(** Whatever the host, a value passed through [htonl] lies in memory most
    significant byte first. *)
Lemma u32_object_htonl (x : Z) : u32_object host (htonl host x) = be_bytes x.
Proof.
  destruct host; simpl; [|reflexivity].
  unfold be_bytes. rewrite <- (Z.shiftr_0_r (bswap32 x)) at 4.
  rewrite !byte_of_bswap32 by lia. simpl.
  rewrite Z.shiftr_0_r. reflexivity.
Qed.


Lemma reverse_bits_32_opcode_disjoint (page_addr op : Z) :
  0 <= page_addr < 2 ^ 24 -> 0 <= op < 2 ^ 8 ->
  Z.land (reverse_bits_32 page_addr) op = 0.
Proof.
  intros Ha Hop. apply Z.bits_inj'. intros j Hj.
  rewrite Z.land_spec, Z.bits_0, reverse_bits_32_testbit by exact Hj.
  destruct (Z.lt_ge_cases j 8) as [Hlow|Hhigh].
  - rewrite (testbit_above 24 page_addr (31 - j)) by lia.
    rewrite Bool.andb_false_r. reflexivity.
  - rewrite (testbit_above 8 op j) by lia. apply Bool.andb_false_r.
Qed.

(** C6: for a page address that is a multiple of 256 below 16 MiB and each
    of the four opcodes, the packed reversed address and the packed opcode
    share no bit, and their bitwise OR is their sum. *)
Theorem addr_and_op_no_collision (page_addr op : Z) :
  0 <= page_addr < 2 ^ 24 ->
  page_addr mod 256 = 0 ->
  op = PAGE_OP_PROGRAM_TDI \/ op = PAGE_OP_VERIFY_TDI \/
  op = PAGE_OP_VERIFY_TDO \/ op = PAGE_OP_VERIFY_MASK ->
  Z.land (htonl host (reverse_bits_32 page_addr)) (htonl host op) = 0 /\
  Z.lor (htonl host (reverse_bits_32 page_addr)) (htonl host op) =
  htonl host (reverse_bits_32 page_addr) + htonl host op.
Proof.
  intros Ha _ Hop.
  assert (Hdisj : Z.land (htonl host (reverse_bits_32 page_addr))
                         (htonl host op) = 0).
  { rewrite <- htonl_land, reverse_bits_32_opcode_disjoint; [apply htonl_0|exact Ha|].
    unfold PAGE_OP_PROGRAM_TDI, PAGE_OP_VERIFY_TDI, PAGE_OP_VERIFY_TDO,
      PAGE_OP_VERIFY_MASK in Hop. lia. }
  split; [exact Hdisj|]. symmetry. apply Z.add_nocarry_lor. exact Hdisj.
Qed.

(** ** Page pattern encoder *)

(** What a run of stores [data[255-i] = f i], for [i] from [a] to
    [a + n - 1], leaves at position [j] of the array. *)
Lemma fill_lookup (f : nat -> Z) (n a : nat) (d : list Z) (j : nat) :
  length d = 256%nat -> (a + n <= 256)%nat -> (j < 256)%nat ->
  fold_left (fun d i => <[(255 - i)%nat := f i]> d) (seq a n) d !! j =
  if decide (a <= 255 - j < a + n)%nat then Some (f (255 - j)%nat) else d !! j.
Proof.
  revert a d. induction n as [|n IH]; intros a d Hlen Han Hj.
  - simpl. destruct (decide _) as [H|H]; [lia|reflexivity].
  - simpl. rewrite IH by (rewrite ?length_insert; lia).
    destruct (decide (S a <= 255 - j < S a + n)%nat) as [H1|H1].
    + destruct (decide _) as [H2|H2]; [reflexivity|lia].
    + destruct (decide (a <= 255 - j < a + S n)%nat) as [H2|H2].
      * assert (Hja : (255 - j)%nat = a) by lia.
        replace j with (255 - a)%nat by lia.
        rewrite list_lookup_insert_eq by lia.
        replace (255 - (255 - a))%nat with a by lia. reflexivity.
      * apply list_lookup_insert_ne. lia.
Qed.

Lemma fill_length (f : nat -> Z) (l : list nat) (d : list Z) :
  length (fold_left (fun d i => <[(255 - i)%nat := f i]> d) l d) = length d.
Proof.
  revert d. induction l as [|i l IH]; intros d; [reflexivity|].
  simpl. rewrite IH. apply length_insert.
Qed.

Lemma fill_Forall (P : Z -> Prop) (f : nat -> Z) (l : list nat) (d : list Z) :
  (forall i, P (f i)) -> Forall P d ->
  Forall P (fold_left (fun d i => <[(255 - i)%nat := f i]> d) l d).
Proof.
  intros Hf. revert d. induction l as [|i l IH]; intros d Hd; [exact Hd|].
  simpl. apply IH, Forall_insert; [exact Hd|apply Hf].
Qed.

(** The array that [create_page_pattern] leaves: padding first, then the
    reversed bytes in reverse order. Nothing of the former contents
    remains. *)
Lemma create_page_pattern_data (pattern : page_pattern) (buf : list Z)
    (len : nat) (page_addr op : Z) :
  length (data pattern) = 256%nat -> (len <= 256)%nat -> (len <= length buf)%nat ->
  data (create_page_pattern pattern (Some buf) len page_addr op).1 =
  replicate (256 - len) 0xff ++ reverse (reverse_bits_8 <$> take len buf).
Proof.
  intros Hd Hlen Hbuf. unfold create_page_pattern. cbn [fst data default].
  apply list_eq. intros j.
  destruct (Nat.lt_ge_cases j 256) as [Hj|Hj].
  - rewrite fill_lookup by (rewrite ?fill_length; lia).
    destruct (decide (len <= 255 - j < len + (256 - len))%nat) as [H|H].
    + rewrite lookup_app_l by (rewrite length_replicate; lia).
      rewrite lookup_replicate_2 by lia. reflexivity.
    + rewrite fill_lookup by lia.
      destruct (decide (0 <= 255 - j < 0 + len)%nat) as [H'|H']; [|lia].
      rewrite lookup_app_r by (rewrite length_replicate; lia).
      rewrite length_replicate.
      rewrite reverse_lookup
        by (rewrite length_fmap, length_take; lia).
      rewrite length_fmap, length_take, list_lookup_fmap.
      rewrite lookup_take_lt by lia.
      replace (len `min` length buf - S (j - (256 - len)))%nat
        with (255 - j)%nat by lia.
      rewrite (list_lookup_lookup_total_lt buf (255 - j)) by lia.
      reflexivity.
  - rewrite !lookup_ge_None_2; [reflexivity| |].
    + rewrite length_app, length_replicate, length_reverse, length_fmap,
        length_take. lia.
    + rewrite !fill_length. lia.
Qed.

Lemma create_page_pattern_data_null (pattern : page_pattern) (len : nat)
    (page_addr op : Z) :
  length (data pattern) = 256%nat ->
  data (create_page_pattern pattern None len page_addr op).1 =
  replicate 256 0xff.
Proof.
  intros Hd. unfold create_page_pattern. cbn [fst data].
  apply list_eq. intros j.
  destruct (Nat.lt_ge_cases j 256) as [Hj|Hj].
  - rewrite (fill_lookup (fun _ => 0xff)) by (rewrite ?fill_length; lia).
    destruct (decide _) as [H|H]; [|lia].
    rewrite lookup_replicate_2 by lia. reflexivity.
  - rewrite !lookup_ge_None_2; [reflexivity| |].
    + rewrite length_replicate. lia.
    + rewrite !fill_length. lia.
Qed.

Lemma create_page_pattern_pair (pattern : page_pattern) (buf : option (list Z))
    (len : nat) (page_addr op : Z) :
  create_page_pattern pattern buf len page_addr op =
  ((create_page_pattern pattern buf len page_addr op).1, 0).
Proof. reflexivity. Qed.

(** Nothing of what the struct held before the call is left in it. *)
Lemma create_page_pattern_overwrites (p p' : page_pattern)
    (buf : option (list Z)) (len : nat) (page_addr op : Z) :
  length (data p) = 256%nat -> length (data p') = 256%nat ->
  (len <= 256)%nat -> (forall l : list Z, buf = Some l -> (len <= length l)%nat) ->
  create_page_pattern p buf len page_addr op =
  create_page_pattern p' buf len page_addr op.
Proof.
  intros Hp Hp' Hlen Hbuf.
  rewrite (create_page_pattern_pair p), (create_page_pattern_pair p').
  f_equal.
  assert (Hdata : data (create_page_pattern p buf len page_addr op).1 =
                  data (create_page_pattern p' buf len page_addr op).1).
  { destruct buf as [l|].
    - rewrite !create_page_pattern_data by eauto. reflexivity.
    - rewrite !create_page_pattern_data_null by assumption. reflexivity. }
  assert (Hfield : addr_and_op (create_page_pattern p buf len page_addr op).1 =
                   addr_and_op (create_page_pattern p' buf len page_addr op).1)
    by reflexivity.
  destruct (create_page_pattern p buf len page_addr op).1,
    (create_page_pattern p' buf len page_addr op).1.
  cbn [data addr_and_op] in Hdata, Hfield. subst. reflexivity.
Qed.

Lemma create_page_pattern_length (pattern : page_pattern)
    (buf : option (list Z)) (len : nat) (page_addr op : Z) :
  length (data (create_page_pattern pattern buf len page_addr op).1) =
  length (data pattern).
Proof.
  unfold create_page_pattern. cbn [fst data]. rewrite !fill_length. reflexivity.
Qed.

Lemma create_page_pattern_rc (pattern : page_pattern) (buf : option (list Z))
    (len : nat) (page_addr op : Z) :
  (create_page_pattern pattern buf len page_addr op).2 = 0.
Proof. reflexivity. Qed.


(** C3: for a buffer of at least [len <= 256] bytes, any page address and
    any opcode, [create_page_pattern] leaves 256 data bytes; position
    [255 - i] holds the bit-reversed input byte [i] for every [i < len];
    positions [0] to [255 - len] hold 0xFF; and [addr_and_op] is the OR of
    [htonl] of the bit-reversed address, or of zero when the opcode is
    [PAGE_OP_VERIFY_TDO] or [PAGE_OP_VERIFY_MASK], with [htonl] of the
    opcode, which in memory is the big-endian encoding of the OR of the
    two values. *)
Theorem create_page_pattern_spec (pattern : page_pattern) (buf : list Z)
    (len : nat) (page_addr op : Z) :
  length (data pattern) = 256%nat -> (len <= 256)%nat -> (len <= length buf)%nat ->
  let p := (create_page_pattern pattern (Some buf) len page_addr op).1 in
  let address :=
    if (op =? PAGE_OP_VERIFY_TDO) || (op =? PAGE_OP_VERIFY_MASK) then 0
    else reverse_bits_32 page_addr in
  length (data p) = 256%nat /\
  (forall (i : nat) (b : Z), (i < len)%nat -> buf !! i = Some b ->
     data p !! (255 - i)%nat = Some (reverse_bits_8 b)) /\
  (forall j : nat, (j + len <= 255)%nat -> data p !! j = Some 0xff) /\
  addr_and_op p = Z.lor (htonl host address) (htonl host op) /\
  u32_object host (addr_and_op p) = be_bytes (Z.lor address op).
Proof.
  intros Hd Hlen Hbuf p address.
  assert (Hp : data p = replicate (256 - len) 0xff
                        ++ reverse (reverse_bits_8 <$> take len buf))
    by (apply create_page_pattern_data; assumption).
  assert (Hfield : addr_and_op p = Z.lor (htonl host address) (htonl host op)).
  { subst p address. unfold create_page_pattern. cbn [fst addr_and_op].
    destruct ((op =? PAGE_OP_VERIFY_TDO) || (op =? PAGE_OP_VERIFY_MASK));
      [rewrite htonl_0|]; reflexivity. }
  repeat split.
  - subst p. rewrite create_page_pattern_length. exact Hd.
  - intros i b Hi Hb. rewrite Hp.
    rewrite lookup_app_r by (rewrite length_replicate; lia).
    rewrite length_replicate.
    rewrite reverse_lookup by (rewrite length_fmap, length_take; lia).
    rewrite length_fmap, length_take, list_lookup_fmap.
    rewrite lookup_take_lt by lia.
    replace (len `min` length buf - S (255 - i - (256 - len)))%nat with i by lia.
    rewrite Hb. reflexivity.
  - intros j Hj. rewrite Hp.
    rewrite lookup_app_l by (rewrite length_replicate; lia).
    apply lookup_replicate_2. lia.
  - exact Hfield.
  - rewrite Hfield, <- htonl_lor. apply u32_object_htonl.
Qed.

(** ** Text and output *)

Lemma append_nil_r (s : string) : (s ++ EmptyString)%string = s.
Proof. induction s as [|c s IH]; simpl; [reflexivity|rewrite IH; reflexivity]. Qed.

Lemma append_assoc (a b c : string) :
  ((a ++ b) ++ c)%string = (a ++ (b ++ c))%string.
Proof. induction a as [|x a IH]; simpl; [reflexivity|rewrite IH; reflexivity]. Qed.

Lemma runs_ret {A : Type} (a : A) : runs (mret a) a EmptyString.
Proof. reflexivity. Qed.

Lemma runs_printf (s : string) : runs (printf s) tt s.
Proof. reflexivity. Qed.

Lemma runs_bind {A B : Type} (m : io A) (k : A -> io B) (a : A) (b : B)
    (w w' : string) :
  runs m a w -> runs (k a) b w' -> runs (m ≫= k) b (w ++ w')%string.
Proof.
  unfold runs. intros -> Hk. unfold mbind, io_bind. rewrite Hk. reflexivity.
Qed.

Lemma runs_stdout {A : Type} (m : io A) (a : A) (w : string) :
  runs m a w -> stdout m = w.
Proof. unfold runs. intros ->. reflexivity. Qed.

Lemma runs_result {A : Type} (m : io A) (a : A) (w : string) :
  runs m a w -> result m = Returns a.
Proof. unfold runs. intros ->. reflexivity. Qed.


Lemma runs_eq {A : Type} (m : io A) (a : A) (w w' : string) :
  runs m a w -> w = w' -> runs m a w'.
Proof. intros H <-. exact H. Qed.

Lemma runs_write_enable : runs write_enable tt (stdout write_enable).
Proof. reflexivity. Qed.

Lemma runs_write_disable : runs write_disable tt (stdout write_disable).
Proof. reflexivity. Qed.

Lemma runs_wait (ms : Z) : runs (wait ms) tt (stdout (wait ms)).
Proof. reflexivity. Qed.

Lemma runs_trst (on : Z) : runs (trst on) tt (stdout (trst on)).
Proof. reflexivity. Qed.

Ltac io_step :=
  lazymatch goal with
  | |- runs (_ ≫= _) _ _ => eapply runs_bind
  | |- runs (mret _) _ _ => apply runs_ret
  | |- runs (printf _) _ _ => apply runs_printf
  | |- runs write_enable _ _ => apply runs_write_enable
  | |- runs write_disable _ _ => apply runs_write_disable
  | |- runs (wait _) _ _ => apply runs_wait
  | |- runs (trst _) _ _ => apply runs_trst
  | |- runs (hexdump _ _ _) _ _ => fail
  | |- runs _ _ _ =>
      rewrite create_page_pattern_pair; cbv beta iota;
      change (0 <? 0) with false; cbv iota
  end.

Ltac io_run := repeat io_step.

Ltac text_eq := rewrite ?append_assoc, ?append_nil_r; reflexivity.

(** ** Hexadecimal dump *)

Lemma fmt_x_byte (b : Z) : byte_range b -> fmt_x 2 b = hex_byte b.
Proof.
  unfold byte_range. intros Hb. unfold fmt_x, hex_byte.
  rewrite (Z.mod_small (b / 16) 16)
    by (split; [apply Z.div_pos; lia|apply Z.div_lt_upper_bound; lia]).
  reflexivity.
Qed.

Lemma hex_render_app (l1 l2 : list Z) :
  hex_render (l1 ++ l2) = (hex_render l1 ++ hex_render l2)%string.
Proof.
  induction l1 as [|b l1 IH]; [reflexivity|].
  cbn [hex_render app]. rewrite IH. unfold hex_byte. reflexivity.
Qed.

Lemma hexdump_take (buf : list Z) (len : nat) (uppercase : bool) :
  (len <= length buf)%nat -> Forall byte_range (take len buf) ->
  runs (hexdump buf len uppercase) tt (hex_render (take len buf)).
Proof.
  unfold hexdump. induction len as [|len IH]; intros Hlen Hrange.
  - reflexivity.
  - destruct (lookup_lt_is_Some_2 buf len ltac:(lia)) as [b Hb].
    rewrite (take_S_r _ _ _ Hb) in Hrange |- *.
    apply Forall_app in Hrange as [Hrange Hlast].
    rewrite seq_S, fold_left_app. cbn [fold_left Nat.add].
    rewrite (list_lookup_total_correct _ _ _ Hb).
    rewrite hex_render_app. eapply runs_bind.
    + apply IH; [lia|exact Hrange].
    + rewrite fmt_x_byte by (inversion Hlast; assumption).
      cbn [hex_render]. rewrite append_nil_r. apply runs_printf.
Qed.

(** The flag that asks for upper case is not looked at. *)
Lemma hexdump_render (bytes : list Z) (uppercase : bool) :
  Forall byte_range bytes ->
  runs (hexdump bytes (length bytes) uppercase) tt (hex_render bytes).
Proof.
  intros Hrange. rewrite <- (firstn_all bytes) at 3.
  apply hexdump_take; [lia|]. rewrite firstn_all. exact Hrange.
Qed.

Lemma hex_render_length (bytes : list Z) :
  String.length (hex_render bytes) = (2 * length bytes)%nat.
Proof.
  induction bytes as [|b l IH]; [reflexivity|].
  cbn [hex_render length]. unfold hex_byte. cbn [append String.length].
  rewrite IH. lia.
Qed.

Lemma hex_digit_lower (n : Z) : 0 <= n < 16 -> is_lower_hex (hex_digit n) = true.
Proof.
  intros Hn. rewrite <- (Z2Nat.id n) by lia.
  assert (Hk : (Z.to_nat n < 16)%nat) by lia.
  revert Hk. generalize (Z.to_nat n). intros k Hk.
  do 16 (destruct k as [|k]; [reflexivity|]). lia.
Qed.

Lemma hex_render_lower (bytes : list Z) :
  Forall byte_range bytes ->
  forallb is_lower_hex (list_ascii_of_string (hex_render bytes)) = true.
Proof.
  induction 1 as [|b l Hb _ IH]; [reflexivity|].
  unfold byte_range in Hb.
  cbn [hex_render]. unfold hex_byte. cbn [append list_ascii_of_string forallb].
  rewrite IH, !hex_digit_lower; [reflexivity| |].
  - apply Z.mod_pos_bound. lia.
  - split; [apply Z.div_pos; lia|apply Z.div_lt_upper_bound; lia].
Qed.


(** ** Page operation writers *)

Lemma be_bytes_range (x : Z) : Forall byte_range (be_bytes x).
Proof.
  unfold be_bytes, byte_range. change 0xff with (Z.ones 8).
  repeat constructor; rewrite Z.land_ones by lia;
    apply Z.mod_pos_bound; reflexivity.
Qed.

Lemma u32_object_range (x : Z) : Forall byte_range (u32_object host x).
Proof.
  destruct host; simpl; [apply Forall_reverse|]; apply be_bytes_range.
Qed.

Lemma pattern_ok_uninit : pattern_ok uninit_pattern.
Proof.
  split; [apply length_replicate|].
  apply Forall_replicate. unfold byte_range. lia.
Qed.

Lemma pattern_ok_create (pattern : page_pattern) (buf : option (list Z))
    (len : nat) (page_addr op : Z) :
  pattern_ok pattern ->
  pattern_ok (create_page_pattern pattern buf len page_addr op).1.
Proof.
  intros [Hlen Hrange]. split.
  - rewrite create_page_pattern_length. exact Hlen.
  - unfold create_page_pattern. cbn [fst data].
    apply fill_Forall; [intros; unfold byte_range; lia|].
    apply fill_Forall; [intros; apply reverse_bits_8_range|exact Hrange].
Qed.

Lemma pattern_ok_program (buf : list Z) (len : nat) (addr : Z) :
  pattern_ok (program_pattern buf len addr).
Proof. apply pattern_ok_create, pattern_ok_uninit. Qed.

Lemma pattern_ok_verify_tdi (addr : Z) : pattern_ok (verify_tdi_pattern addr).
Proof. apply pattern_ok_create, pattern_ok_uninit. Qed.

Lemma pattern_ok_verify_tdo (buf : list Z) (len : nat) (addr : Z) :
  pattern_ok (verify_tdo_pattern buf len addr).
Proof. apply pattern_ok_create, pattern_ok_verify_tdi. Qed.

Lemma pattern_ok_verify_mask (buf : list Z) (len : nat) (addr : Z) :
  pattern_ok (verify_mask_pattern buf len addr).
Proof. apply pattern_ok_create, pattern_ok_verify_tdo. Qed.

Lemma pattern_object_length (p : page_pattern) :
  pattern_ok p -> length (pattern_object host p) = 260%nat.
Proof.
  intros [Hlen _]. unfold pattern_object. rewrite length_app, Hlen.
  destruct host; reflexivity.
Qed.

Lemma pattern_object_range (p : page_pattern) :
  pattern_ok p -> Forall byte_range (pattern_object host p).
Proof.
  intros [_ Hrange]. apply Forall_app. split; [exact Hrange|].
  apply u32_object_range.
Qed.

Lemma hexdump_pattern (p : page_pattern) (uppercase : bool) :
  pattern_ok p ->
  runs (hexdump (pattern_object host p) 260 uppercase) tt
       (hex_render (pattern_object host p)).
Proof.
  intros Hp. rewrite <- (pattern_object_length p Hp).
  apply hexdump_render, pattern_object_range, Hp.
Qed.

Ltac pattern_dumps :=
  try (apply hexdump_pattern; repeat apply pattern_ok_create;
       apply pattern_ok_uninit).

Lemma runs_send_page_program (buf : list Z) (len : nat) (addr : Z) :
  runs (send_page_program buf len addr) 0
       (stdout write_enable ++
        "! Program page: 0x" ++ fmt_x 8 addr ++ nl ++
        "SDR 2080 TDI (" ++
        hex_render (pattern_object host (program_pattern buf len addr)) ++
        ");" ++ nl ++ nl ++
        stdout write_disable ++ stdout (wait 2)).
Proof.
  unfold send_page_program. eapply runs_eq.
  - io_run. pattern_dumps.
  - unfold program_pattern. text_eq.
Qed.

Lemma runs_send_page_verify (buf : list Z) (len : nat) (addr : Z) :
  runs (send_page_verify buf len addr) 0
       ("! Verify page: 0x" ++ fmt_x 8 addr ++ nl ++
        "SDR 2080 TDI (" ++
        hex_render (pattern_object host (verify_tdi_pattern addr)) ++
        ")" ++ nl ++
        "TDO (" ++
        hex_render (pattern_object host (verify_tdo_pattern buf len addr)) ++
        ")" ++ nl ++
        "MASK (" ++
        hex_render (pattern_object host (verify_mask_pattern buf len addr)) ++
        ");" ++ nl).
Proof.
  unfold send_page_verify. eapply runs_eq.
  - io_run; pattern_dumps.
  - unfold verify_mask_pattern, verify_tdo_pattern, verify_tdi_pattern. text_eq.
Qed.

(** The field as it lies in memory: the big-endian bytes of the reversed
    address, or of zero, OR'ed with the opcode. *)
Lemma addr_and_op_in_memory (pattern : page_pattern) (buf : option (list Z))
    (len : nat) (page_addr op : Z) :
  u32_object host
    (addr_and_op (create_page_pattern pattern buf len page_addr op).1) =
  be_bytes
    (Z.lor (if (op =? PAGE_OP_VERIFY_TDO) || (op =? PAGE_OP_VERIFY_MASK)
            then 0 else reverse_bits_32 page_addr) op).
Proof.
  unfold create_page_pattern. cbn [fst addr_and_op].
  destruct ((op =? PAGE_OP_VERIFY_TDO) || (op =? PAGE_OP_VERIFY_MASK)).
  - rewrite <- htonl_0 at 1. rewrite <- htonl_lor. apply u32_object_htonl.
  - rewrite <- htonl_lor. apply u32_object_htonl.
Qed.


Lemma pattern_object_program (buf : list Z) (len : nat) (addr : Z) :
  pattern_object host (program_pattern buf len addr) =
  data (program_pattern buf len addr) ++
  be_bytes (Z.lor (reverse_bits_32 addr) PAGE_OP_PROGRAM_TDI).
Proof.
  unfold pattern_object, program_pattern. rewrite addr_and_op_in_memory.
  change ((PAGE_OP_PROGRAM_TDI =? PAGE_OP_VERIFY_TDO)
          || (PAGE_OP_PROGRAM_TDI =? PAGE_OP_VERIFY_MASK)) with false.
  reflexivity.
Qed.

Lemma pattern_object_verify_tdi (addr : Z) :
  pattern_object host (verify_tdi_pattern addr) =
  data (verify_tdi_pattern addr) ++
  be_bytes (Z.lor (reverse_bits_32 addr) PAGE_OP_VERIFY_TDI).
Proof.
  unfold pattern_object, verify_tdi_pattern. rewrite addr_and_op_in_memory.
  change ((PAGE_OP_VERIFY_TDI =? PAGE_OP_VERIFY_TDO)
          || (PAGE_OP_VERIFY_TDI =? PAGE_OP_VERIFY_MASK)) with false.
  reflexivity.
Qed.

Lemma pattern_object_verify_tdo (buf : list Z) (len : nat) (addr : Z) :
  pattern_object host (verify_tdo_pattern buf len addr) =
  data (verify_tdo_pattern buf len addr) ++ be_bytes 0.
Proof.
  unfold pattern_object, verify_tdo_pattern. rewrite addr_and_op_in_memory.
  reflexivity.
Qed.

Lemma pattern_object_verify_mask (buf : list Z) (len : nat) (addr : Z) :
  pattern_object host (verify_mask_pattern buf len addr) =
  data (verify_mask_pattern buf len addr) ++ be_bytes 0.
Proof.
  unfold pattern_object, verify_mask_pattern. rewrite addr_and_op_in_memory.
  reflexivity.
Qed.

Lemma pattern_dump_shape (p : page_pattern) :
  pattern_ok p ->
  String.length (hex_render (pattern_object host p)) = 520%nat /\
  forallb is_lower_hex
    (list_ascii_of_string (hex_render (pattern_object host p))) = true.
Proof.
  intros Hp. split.
  - rewrite hex_render_length, (pattern_object_length p Hp). reflexivity.
  - apply hex_render_lower, pattern_object_range, Hp.
Qed.

(** C7: the pattern dumped by [send_page_program] and the three dumped by
    [send_page_verify], the TDI and MASK ones included, are written as
    lowercase hexadecimal digits, two per byte and nothing between them, in
    the order of the 260 bytes of the struct in memory: the 256 data bytes
    in array order, then the four bytes of [addr_and_op], which are the
    big-endian bytes of the reversed address OR'ed with the opcode. *)
Theorem page_dumps_lowercase_hex (buf : list Z) (len : nat) (addr : Z) :
  let program := pattern_object host (program_pattern buf len addr) in
  let tdi := pattern_object host (verify_tdi_pattern addr) in
  let tdo := pattern_object host (verify_tdo_pattern buf len addr) in
  let mask := pattern_object host (verify_mask_pattern buf len addr) in
  stdout (send_page_program buf len addr) =
    (stdout write_enable ++
     "! Program page: 0x" ++ fmt_x 8 addr ++ nl ++
     "SDR 2080 TDI (" ++ hex_render program ++ ");" ++ nl ++ nl ++
     stdout write_disable ++ stdout (wait 2))%string /\
  stdout (send_page_verify buf len addr) =
    ("! Verify page: 0x" ++ fmt_x 8 addr ++ nl ++
     "SDR 2080 TDI (" ++ hex_render tdi ++ ")" ++ nl ++
     "TDO (" ++ hex_render tdo ++ ")" ++ nl ++
     "MASK (" ++ hex_render mask ++ ");" ++ nl)%string /\
  program = data (program_pattern buf len addr) ++
            be_bytes (Z.lor (reverse_bits_32 addr) PAGE_OP_PROGRAM_TDI) /\
  tdi = data (verify_tdi_pattern addr) ++
        be_bytes (Z.lor (reverse_bits_32 addr) PAGE_OP_VERIFY_TDI) /\
  tdo = data (verify_tdo_pattern buf len addr) ++ be_bytes 0 /\
  mask = data (verify_mask_pattern buf len addr) ++ be_bytes 0 /\
  Forall (fun bytes : list Z =>
            length bytes = 260%nat /\
            String.length (hex_render bytes) = 520%nat /\
            forallb is_lower_hex (list_ascii_of_string (hex_render bytes)) = true)
         [program; tdi; tdo; mask].
Proof.
  intros program tdi tdo mask.
  split; [exact (runs_stdout _ _ _ (runs_send_page_program buf len addr))|].
  split; [exact (runs_stdout _ _ _ (runs_send_page_verify buf len addr))|].
  split; [apply pattern_object_program|].
  split; [apply pattern_object_verify_tdi|].
  split; [apply pattern_object_verify_tdo|].
  split; [apply pattern_object_verify_mask|].
  assert (Hshape : forall p : page_pattern, pattern_ok p ->
            length (pattern_object host p) = 260%nat /\
            String.length (hex_render (pattern_object host p)) = 520%nat /\
            forallb is_lower_hex
              (list_ascii_of_string (hex_render (pattern_object host p))) = true).
  { intros p Hp. split; [apply pattern_object_length, Hp|].
    apply pattern_dump_shape, Hp. }
  apply Forall_cons. split; [apply Hshape, pattern_ok_program|].
  apply Forall_cons. split; [apply Hshape, pattern_ok_verify_tdi|].
  apply Forall_cons. split; [apply Hshape, pattern_ok_verify_tdo|].
  apply Forall_cons. split; [apply Hshape, pattern_ok_verify_mask|].
  apply List.Forall_nil.
Qed.

(** C2, as the code has it: in every verify emission the 256 data bytes of
    the [PAGE_OP_VERIFY_MASK] pattern are all 0xFF, whatever the page holds
    and wherever it lies; only the four bytes of [addr_and_op] are zero; and
    this is the pattern written after [MASK (] at the end of the output of
    [send_page_verify]. *)
Theorem verify_mask_all_ones (buf : list Z) (len : nat) (addr : Z) :
  data (verify_mask_pattern buf len addr) = replicate 256 0xff /\
  addr_and_op (verify_mask_pattern buf len addr) = 0 /\
  exists before : string,
    stdout (send_page_verify buf len addr) =
    (before ++ "MASK (" ++ hex_render (replicate 256 0xff ++ [0; 0; 0; 0]) ++
     ");" ++ nl)%string.
Proof.
  assert (Hdata : data (verify_mask_pattern buf len addr) = replicate 256 0xff).
  { unfold verify_mask_pattern. apply create_page_pattern_data_null.
    apply pattern_ok_verify_tdo. }
  assert (Hfield : addr_and_op (verify_mask_pattern buf len addr) = 0).
  { unfold verify_mask_pattern, create_page_pattern. cbn [fst addr_and_op].
    change PAGE_OP_VERIFY_MASK with 0. change (0 =? 0) with true.
    cbn [orb]. rewrite htonl_0. reflexivity. }
  split; [exact Hdata|]. split; [exact Hfield|].
  eexists. rewrite (runs_stdout _ _ _ (runs_send_page_verify buf len addr)).
  unfold pattern_object at 3. rewrite Hdata, Hfield.
  replace (u32_object host 0) with [0; 0; 0; 0] by (destruct host; reflexivity).
  rewrite <- !append_assoc. reflexivity.
Qed.


(** ** Orchestrator *)

Lemma runs_self {A : Type} (m : io A) (a : A) (w : string) :
  runs m a w -> runs m a (stdout m).
Proof. unfold runs. intros ->. reflexivity. Qed.

Lemma runs_program (buf : list Z) (len : nat) (addr : Z) :
  runs (send_page_program buf len addr) 0
       (stdout (send_page_program buf len addr)).
Proof. exact (runs_self _ _ _ (runs_send_page_program buf len addr)). Qed.

Lemma runs_verify (buf : list Z) (len : nat) (addr : Z) :
  runs (send_page_verify buf len addr) 0
       (stdout (send_page_verify buf len addr)).
Proof. exact (runs_self _ _ _ (runs_send_page_verify buf len addr)). Qed.

Ltac body_step :=
  lazymatch goal with
  | |- runs (send_page_program _ _ _) _ _ => apply runs_program
  | |- runs (send_page_verify _ _ _) _ _ => apply runs_verify
  | |- runs (_ ≫= _) _ _ => eapply runs_bind
  | |- runs (mret _) _ _ => apply runs_ret
  | |- runs _ _ _ =>
      progress (cbv beta; change (0 <? 0) with false;
                cbn [end_goto_out end_written end_programmed end_verified
                     end_rc negb andb orb Z.eqb])
  end.

(** The loop body never leaves by [goto out]: it programs and verifies as
    the mode and the page contents say, and sets [rc] to 0 when it does
    either. *)
Lemma runs_page_body (buf : list Z) (blen : nat) (addr mode : Z)
    (rc0 : option Z) :
  runs (page_body buf blen addr mode rc0)
       (BodyEnd false
          (if page_verifies mode buf blen then Some 0 else rc0)
          (if page_programs mode buf blen then 1 else 0)
          (page_programs mode buf blen) (page_verifies mode buf blen))
       ((if page_programs mode buf blen
         then stdout (send_page_program buf blen addr) else EmptyString) ++
        (if page_verifies mode buf blen
         then stdout (send_page_verify buf blen addr) else EmptyString)).
Proof.
  unfold page_body, page_verifies, page_programs.
  destruct (Z.land mode MODE_WRITE =? 0), (Z.land mode MODE_ERASE =? 0),
    (Z.land mode MODE_VERIFY =? 0), (scan_all_ones buf 0 blen =? 0);
    cbn [negb andb orb]; eapply runs_eq; try (repeat body_step);
    rewrite ?append_nil_r; reflexivity.
Qed.


Lemma runs_eq2 {A : Type} (m : io A) (a a' : A) (w w' : string) :
  runs m a w -> a = a' -> w = w' -> runs m a' w'.
Proof. intros H <- <-. exact H. Qed.

Lemma page_verifies_programs (mode : Z) (buf : list Z) (blen : nat) :
  page_programs mode buf blen || page_verifies mode buf blen =
  page_verifies mode buf blen.
Proof.
  unfold page_verifies.
  destruct (page_programs mode buf blen), (Z.land mode MODE_VERIFY =? 0);
    reflexivity.
Qed.

Lemma ran_Iteration (addr : Z) (blen : nat) (p v : bool) :
  ran (Iteration addr blen p v) = p || v.
Proof. reflexivity. Qed.

Lemma u32_range (x : Z) : 0 <= u32 x < 2 ^ 32.
Proof. apply Z.mod_pos_bound. reflexivity. Qed.

Lemma u32_add_l (x y : Z) : u32 (u32 x + y) = u32 (x + y).
Proof. unfold u32. apply Zplus_mod_idemp_l. Qed.

(** The page loop always runs to its end. It executes the body once per
    page, on the pages in order, and [rc] is 0 at the end when some step
    ran and is left as it was otherwise. *)
Lemma page_loop_runs (mode : Z) (len : nat) :
  forall (buf : list Z) (addr : Z) (rc0 : option Z),
    0 <= addr < 2 ^ 32 ->
    exists tr : list iteration,
      runs (page_loop buf len addr mode rc0)
           (LoopEnd true (if existsb ran tr then Some 0 else rc0) tr)
           (trace_text buf tr) /\
      length tr = Nat.max 1 ((len + 255) / 256) /\
      forall (i : nat) (it : iteration),
        tr !! i = Some it -> iteration_ok mode buf len addr i it.
Proof.
  induction len as [len IH] using lt_wf_ind. intros buf addr rc0 Ha.
  rewrite page_loop_equation_1. cbv zeta.
  set (blen := if (len <? 256)%nat then len else 256%nat).
  assert (Hblen : blen = Nat.min len 256)
    by (subst blen; destruct (Nat.ltb_spec len 256); lia).
  set (it0 := Iteration addr blen (page_programs mode buf blen)
                        (page_verifies mode buf blen)).
  assert (Hit0 : iteration_ok mode buf len addr 0 it0).
  { unfold iteration_ok. cbn [it_blen it_addr it_programmed it_verified].
    rewrite Nat.mul_0_r, Nat.sub_0_r, Z.mul_0_r, Z.add_0_r.
    repeat split; [exact Hblen|]. unfold u32. rewrite Z.mod_small; [reflexivity|exact Ha]. }
  destruct (decide ((len - blen)%nat = 0%nat)) as [Hz|Hnz].
  - exists [it0]. split; [|split].
    + eapply runs_eq2.
      * eapply runs_bind; [apply runs_page_body|].
        cbn [end_goto_out end_rc end_programmed end_verified].
        apply runs_ret.
      * unfold it0. cbn [existsb].
        rewrite ran_Iteration, Bool.orb_false_r, page_verifies_programs.
        reflexivity.
      * unfold it0.
        cbn [trace_text it_programmed it_verified it_blen it_addr].
        text_eq.
    + cbn [length]. assert (Hdiv : ((len + 255) / 256 < 2)%nat).
      { apply Nat.Div0.div_lt_upper_bound. lia. }
      lia.
    + intros [|i] it Hlook; [|destruct i; discriminate].
      injection Hlook as <-. exact Hit0.
  - assert (Hlen : (256 < len)%nat) by lia.
    assert (Hb : blen = 256%nat) by lia.
    destruct (IH (len - blen)%nat ltac:(lia) (drop blen buf)
                 (u32 (addr + Z.of_nat blen))
                 (if page_verifies mode buf blen then Some 0 else rc0)
                 (u32_range _)) as (tr & Hruns & Hcount & Hpages).
    exists (it0 :: tr). split; [|split].
    + eapply runs_eq2.
      * eapply runs_bind; [apply runs_page_body|].
        cbn [end_goto_out end_rc end_programmed end_verified].
        eapply runs_bind; [exact Hruns|apply runs_ret].
      * unfold record_iteration. cbn [completed loop_rc trace existsb].
        unfold it0. f_equal.
        rewrite ran_Iteration, page_verifies_programs.
        destruct (page_verifies mode buf blen), (existsb ran tr); reflexivity.
      * unfold it0.
        cbn [trace_text it_programmed it_verified it_blen it_addr].
        text_eq.
    + cbn [length]. rewrite Hcount, Hb.
      replace (len + 255)%nat with ((len - 256 + 255) + 1 * 256)%nat by lia.
      rewrite Nat.div_add by lia.
      assert (Hone : (1 <= (len - 256 + 255) / 256)%nat)
        by (apply Nat.div_le_lower_bound; lia).
      lia.
    + intros [|i] it Hlook.
      * injection Hlook as <-. exact Hit0.
      * cbn in Hlook. apply Hpages in Hlook.
        destruct Hlook as (H1 & H2 & H3 & H4).
        unfold iteration_ok. rewrite Hb in *.
        replace (256 * S i)%nat with (256 + 256 * i)%nat by lia.
        rewrite <- !drop_drop. repeat split.
        -- rewrite H1. f_equal. lia.
        -- rewrite H2, u32_add_l. f_equal. lia.
        -- exact H3.
        -- exact H4.
Qed.


Lemma runs_erase_time : runs (erase_time chip_size) 250000 EmptyString.
Proof. reflexivity. Qed.

Lemma runs_set_frequency : runs set_frequency tt (stdout set_frequency).
Proof. reflexivity. Qed.

Lemma runs_clear_software_protect :
  runs clear_software_protect tt (stdout clear_software_protect).
Proof. reflexivity. Qed.

Lemma runs_check_no_software_protect :
  runs check_no_software_protect tt (stdout check_no_software_protect).
Proof. reflexivity. Qed.

Lemma runs_check_status : runs check_status tt (stdout check_status).
Proof. reflexivity. Qed.

Lemma runs_bulk_erase : runs bulk_erase tt (stdout bulk_erase).
Proof. reflexivity. Qed.

Ltac svf_step :=
  lazymatch goal with
  | |- runs (_ ≫= _) _ _ => eapply runs_bind
  | |- runs (mret _) _ _ => apply runs_ret
  | |- runs write_enable _ _ => apply runs_write_enable
  | |- runs write_disable _ _ => apply runs_write_disable
  | |- runs (wait _) _ _ => apply runs_wait
  | |- runs (trst _) _ _ => apply runs_trst
  | |- runs set_frequency _ _ => apply runs_set_frequency
  | |- runs clear_software_protect _ _ => apply runs_clear_software_protect
  | |- runs check_no_software_protect _ _ => apply runs_check_no_software_protect
  | |- runs check_status _ _ => apply runs_check_status
  | |- runs bulk_erase _ _ => apply runs_bulk_erase
  | |- runs (erase_time chip_size) _ _ => apply runs_erase_time
  end.

Lemma setup_text_eq :
  setup_text =
  (stdout set_frequency ++ stdout write_enable ++
   stdout clear_software_protect ++ stdout write_disable ++
   stdout (wait 100) ++ stdout check_no_software_protect)%string.
Proof.
  unfold setup_text. eapply runs_stdout. repeat svf_step.
Qed.

Lemma erase_text_eq :
  erase_text =
  (stdout write_enable ++ stdout bulk_erase ++ stdout write_disable ++
   stdout (wait 250000) ++ stdout check_status)%string.
Proof.
  unfold erase_text. eapply runs_stdout. eapply runs_eq.
  - repeat svf_step.
  - reflexivity.
Qed.

(** A run of [generate_svf] on a 32-bit address always returns, after the
    closing [trst(1)]; the process never exits, the chip size being
    [SIZE_16MB]. *)
Lemma generate_svf_run_runs (buf : list Z) (len : nat) (addr mode : Z) :
  0 <= addr < 2 ^ 32 ->
  exists tr : list iteration,
    runs (generate_svf_run buf len addr mode)
         (LoopEnd true (if existsb ran tr then Some 0 else None) tr)
         (stdout (trst 0) ++ setup_text ++
          (if negb (Z.land mode MODE_ERASE =? 0) then erase_text
           else EmptyString) ++
          trace_text buf tr ++ stdout (trst 1)) /\
    length tr = Nat.max 1 ((len + 255) / 256) /\
    forall (i : nat) (it : iteration),
      tr !! i = Some it -> iteration_ok mode buf len addr i it.
Proof.
  intros Ha.
  destruct (page_loop_runs mode len buf addr None Ha) as (tr & Hruns & Hrest).
  exists tr. split; [|exact Hrest].
  unfold generate_svf_run.
  destruct (Z.land mode MODE_ERASE =? 0); cbn [negb].
  - eapply runs_eq.
    + repeat svf_step. exact Hruns. cbn [completed]. repeat svf_step.
    + rewrite setup_text_eq. text_eq.
  - eapply runs_eq.
    + repeat svf_step. exact Hruns. cbn [completed]. repeat svf_step.
    + rewrite setup_text_eq, erase_text_eq. text_eq.
Qed.


(** ** Lines of the output *)

Lemma lines_nonempty (s : string) : lines s <> [].
Proof.
  induction s as [|c s IH]; simpl; [discriminate|].
  destruct (Ascii.eqb c newline); [discriminate|].
  destruct (lines s); discriminate.
Qed.

Lemma lines_app_nl (a b : string) :
  lines (a ++ String newline b) = lines a ++ lines b.
Proof.
  induction a as [|c a IH]; cbn [append]; cbn [lines].
  - rewrite Ascii.eqb_refl. reflexivity.
  - destruct (Ascii.eqb c newline); [rewrite IH; reflexivity|].
    rewrite IH. pose proof (lines_nonempty a) as Hne.
    destruct (lines a); [contradiction|reflexivity].
Qed.

Lemma emitted_lines_app_nl (a b : string) :
  emitted_lines (a ++ nl ++ b) = emitted_lines a ++ emitted_lines b.
Proof.
  unfold emitted_lines, nl. cbn [append]. rewrite lines_app_nl.
  apply List.filter_app.
Qed.

Lemma ends_with_newline_app (a b : string) :
  ends_with_newline b = true -> ends_with_newline (a ++ b) = true.
Proof.
  intros Hb. induction a as [|c a IH]; [exact Hb|].
  cbn [append]. cbn [ends_with_newline].
  destruct (a ++ b)%string eqn:E; [|exact IH].
  destruct a; [|discriminate E]. simpl in E. subst b. discriminate Hb.
Qed.

Lemma ends_with_newline_split (s : string) :
  ends_with_newline s = true -> exists t : string, s = (t ++ nl)%string.
Proof.
  induction s as [|c s IH]; [discriminate|].
  cbn [ends_with_newline]. destruct s as [|c' s'].
  - intros Hc. apply Ascii.eqb_eq in Hc. subst c. exists EmptyString. reflexivity.
  - intros Hs. destruct (IH Hs) as [t Ht]. exists (String c t).
    cbn [append]. rewrite <- Ht. reflexivity.
Qed.

Lemma nl_terminated_app (a b : string) :
  nl_terminated a -> nl_terminated b -> nl_terminated (a ++ b).
Proof.
  intros Ha [->|Hb]; [rewrite append_nil_r; exact Ha|].
  right. apply ends_with_newline_app. exact Hb.
Qed.

Lemma ends_with_newline_app_nl (a b : string) :
  ends_with_newline a = true -> nl_terminated b ->
  ends_with_newline (a ++ b) = true.
Proof.
  intros Ha [->|Hb]; [rewrite append_nil_r; exact Ha|].
  apply ends_with_newline_app. exact Hb.
Qed.

Lemma send_page_program_ends (buf : list Z) (len : nat) (addr : Z) :
  ends_with_newline (stdout (send_page_program buf len addr)) = true.
Proof.
  rewrite (runs_stdout _ _ _ (runs_send_page_program buf len addr)).
  do 9 apply ends_with_newline_app. unfold wait, stdout, printf. cbn [snd].
  do 4 apply ends_with_newline_app. reflexivity.
Qed.

Lemma send_page_verify_ends (buf : list Z) (len : nat) (addr : Z) :
  ends_with_newline (stdout (send_page_verify buf len addr)) = true.
Proof.
  rewrite (runs_stdout _ _ _ (runs_send_page_verify buf len addr)).
  do 14 apply ends_with_newline_app. reflexivity.
Qed.

Lemma trace_text_terminated (tr : list iteration) :
  forall buf : list Z, nl_terminated (trace_text buf tr).
Proof.
  induction tr as [|it tr IH]; intros buf; [left; reflexivity|].
  cbn [trace_text]. repeat apply nl_terminated_app.
  - destruct (it_programmed it); [right; apply send_page_program_ends|left; reflexivity].
  - destruct (it_verified it); [right; apply send_page_verify_ends|left; reflexivity].
  - apply IH.
Qed.

Lemma setup_text_ends : ends_with_newline setup_text = true.
Proof.
  rewrite setup_text_eq. do 5 apply ends_with_newline_app. reflexivity.
Qed.

Lemma erase_text_ends : ends_with_newline erase_text = true.
Proof.
  rewrite erase_text_eq. do 4 apply ends_with_newline_app. reflexivity.
Qed.


Lemma runs_generate_svf (buf : list Z) (len : nat) (addr mode : Z)
    (e : loop_end) (w : string) :
  runs (generate_svf_run buf len addr mode) e w ->
  runs (generate_svf buf len addr mode) (loop_rc e) w.
Proof.
  intros Hrun. unfold generate_svf. eapply runs_eq.
  - eapply runs_bind; [exact Hrun|apply runs_ret].
  - apply append_nil_r.
Qed.

(** C1, as the code has it: every run of [generate_svf] returns, the first
    line of its output is [TRST OFF;], written by [trst(0)], and the final
    line is [TRST ON;], written by [trst(1)] after the page loop, which
    never fails; [trst] writes [TRST OFF;] for 0 and [TRST ON;] for 1 and
    for every other argument that is not zero, each followed by a blank
    line. *)
Theorem trst_off_first_on_last (buf : list Z) (len : nat) (addr mode : Z) :
  0 <= addr < 2 ^ 32 ->
  first_line (stdout (generate_svf buf len addr mode)) = Some "TRST OFF;"%string /\
  final_line (stdout (generate_svf buf len addr mode)) = Some "TRST ON;"%string /\
  (exists rc : option Z, result (generate_svf buf len addr mode) = Returns rc) /\
  stdout (trst 0) = ("TRST OFF;" ++ nl ++ nl)%string /\
  stdout (trst 1) = ("TRST ON;" ++ nl ++ nl)%string /\
  (forall on : Z, on <> 0 -> stdout (trst on) = ("TRST ON;" ++ nl ++ nl)%string).
Proof.
  intros Ha.
  cut (first_line (stdout (generate_svf buf len addr mode)) =
         Some "TRST OFF;"%string /\
       final_line (stdout (generate_svf buf len addr mode)) =
         Some "TRST ON;"%string /\
       exists rc : option Z,
         result (generate_svf buf len addr mode) = Returns rc).
  { intros (Hfirst & Hfinal & Hreturns).
    split; [exact Hfirst|]. split; [exact Hfinal|]. split; [exact Hreturns|].
    split; [reflexivity|]. split; [reflexivity|].
    intros on Hon. unfold trst, printf, stdout. cbn [snd].
    destruct (Z.eqb_spec on 0) as [Hzero|_]; [contradiction|reflexivity]. }
  destruct (generate_svf_run_runs buf len addr mode Ha) as (tr & Hrun & _).
  apply runs_generate_svf in Hrun. cbn [loop_rc] in Hrun.
  rewrite (runs_stdout _ _ _ Hrun), (runs_result _ _ _ Hrun).
  set (erase := if negb (Z.land mode MODE_ERASE =? 0) then erase_text
                else EmptyString).
  assert (Herase : nl_terminated erase).
  { subst erase. destruct (negb _); [right; apply erase_text_ends|left; reflexivity]. }
  split; [|split].
  - unfold first_line. change (stdout (trst 0)) with ("TRST OFF;" ++ nl ++ nl)%string.
    rewrite !append_assoc, emitted_lines_app_nl. reflexivity.
  - assert (Hbody : ends_with_newline
                      (stdout (trst 0) ++ setup_text ++ erase ++ trace_text buf tr)
                    = true).
    { apply ends_with_newline_app. rewrite <- append_assoc.
      apply ends_with_newline_app_nl; [|apply trace_text_terminated].
      apply ends_with_newline_app_nl; [apply setup_text_ends|exact Herase]. }
    apply ends_with_newline_split in Hbody as [before Hbefore].
    replace (stdout (trst 0) ++ setup_text ++ erase ++ trace_text buf tr
             ++ stdout (trst 1))%string
      with (before ++ nl ++ stdout (trst 1))%string.
    + unfold final_line. rewrite emitted_lines_app_nl.
      change (emitted_lines (stdout (trst 1))) with ["TRST ON;"%string].
      apply last_snoc.
    + rewrite <- append_assoc, <- Hbefore. text_eq.
  - eexists. reflexivity.
Qed.


(** ** Pages, steps and the return value *)

Lemma scan_all_ones_full (buf : list Z) (n i : nat) :
  (forall k : nat, (i <= k < i + n)%nat -> buf !! k = Some 0xFF) ->
  scan_all_ones buf i n = 1.
Proof.
  revert i. induction n as [|n IH]; intros i Hall; [reflexivity|].
  cbn [scan_all_ones].
  rewrite (list_lookup_total_correct buf i 0xFF) by (apply Hall; lia).
  change (negb (0xFF =? 0xFF)) with false. cbv iota.
  apply IH. intros k Hk. apply Hall. lia.
Qed.

Lemma page_programs_all_ones (mode : Z) (buf : list Z) (blen : nat) :
  (forall i : nat, (i < blen)%nat -> buf !! i = Some 0xFF) ->
  page_programs mode buf blen =
  negb (Z.land mode MODE_WRITE =? 0) && (Z.land mode MODE_ERASE =? 0).
Proof.
  intros Hall. unfold page_programs.
  rewrite scan_all_ones_full by (intros k Hk; apply Hall; lia).
  change (1 =? 0) with false. rewrite Bool.orb_false_r. reflexivity.
Qed.

(** C4: on a page whose bytes are all 0xFF, the loop body writes nothing
    under [MODE_ERASE | MODE_WRITE]; it writes the verify sequence, and no
    program sequence, when [MODE_VERIFY] is set as well; and under
    [MODE_WRITE] alone it writes the program sequence followed by the
    verify sequence. *)
Theorem write_skip (buf : list Z) (blen : nat) (addr : Z) (rc0 : option Z) :
  (forall i : nat, (i < blen)%nat -> buf !! i = Some 0xFF) ->
  runs (page_body buf blen addr (Z.lor MODE_ERASE MODE_WRITE) rc0)
       (BodyEnd false rc0 0 false false) EmptyString /\
  runs (page_body buf blen addr
          (Z.lor (Z.lor MODE_ERASE MODE_WRITE) MODE_VERIFY) rc0)
       (BodyEnd false (Some 0) 0 false true)
       (stdout (send_page_verify buf blen addr)) /\
  runs (page_body buf blen addr MODE_WRITE rc0)
       (BodyEnd false (Some 0) 1 true true)
       (stdout (send_page_program buf blen addr) ++
        stdout (send_page_verify buf blen addr)).
Proof.
  intros Hall. repeat split.
  all: eapply runs_eq2; [apply runs_page_body| |].
  all: unfold page_verifies; rewrite !page_programs_all_ones by exact Hall.
  all: reflexivity.
Qed.



Lemma existsb_ran_false (tr : list iteration) :
  (forall (i : nat) (it : iteration), tr !! i = Some it -> ran it = false) ->
  existsb ran tr = false.
Proof.
  induction tr as [|it tr IH]; intros Hall; [reflexivity|].
  cbn [existsb]. rewrite (Hall 0%nat it eq_refl). cbn [orb].
  apply IH. intros i it' Hi. exact (Hall (S i) it' Hi).
Qed.

(** C9: called with [len = 0], [generate_svf] still executes the loop body
    once, on a zero-length page at the base address. Such a page counts as
    all ones: it is programmed, with 256 data bytes 0xFF, when
    [MODE_WRITE] is set and [MODE_ERASE] is clear, and it is verified when
    [MODE_VERIFY] is set or it was programmed. *)
Theorem generate_svf_empty_buffer (buf : list Z) (addr mode : Z) :
  let programs :=
    negb (Z.land mode MODE_WRITE =? 0) && (Z.land mode MODE_ERASE =? 0) in
  let verifies := negb (Z.land mode MODE_VERIFY =? 0) || programs in
  runs (generate_svf_run buf 0 addr mode)
       (LoopEnd true (if verifies then Some 0 else None)
                [Iteration addr 0 programs verifies])
       (stdout (trst 0) ++ setup_text ++
        (if negb (Z.land mode MODE_ERASE =? 0) then erase_text
         else EmptyString) ++
        (if programs then stdout (send_page_program buf 0 addr)
         else EmptyString) ++
        (if verifies then stdout (send_page_verify buf 0 addr)
         else EmptyString) ++
        stdout (trst 1)) /\
  data (program_pattern buf 0 addr) = replicate 256 0xff.
Proof.
  intros programs verifies.
  assert (Hp : page_programs mode buf 0 = programs).
  { apply page_programs_all_ones. intros i Hi. lia. }
  assert (Hv : page_verifies mode buf 0 = verifies).
  { unfold page_verifies. rewrite Hp. reflexivity. }
  assert (Hloop : runs (page_loop buf 0 addr mode None)
                       (LoopEnd true (if verifies then Some 0 else None)
                                [Iteration addr 0 programs verifies])
                       ((if programs then stdout (send_page_program buf 0 addr)
                         else EmptyString) ++
                        (if verifies then stdout (send_page_verify buf 0 addr)
                         else EmptyString))).
  { rewrite page_loop_equation_1. cbv zeta.
    change (if (0 <? 256)%nat then 0%nat else 256%nat) with 0%nat.
    change (decide ((0 - 0)%nat = 0%nat)) with (decide (0%nat = 0%nat)).
    destruct (decide (0%nat = 0%nat)) as [_|Hne]; [|contradiction].
    eapply runs_eq2.
    - eapply runs_bind; [apply runs_page_body|].
      cbn [end_goto_out end_rc end_programmed end_verified]. apply runs_ret.
    - rewrite Hp, Hv. reflexivity.
    - rewrite Hp, Hv. apply append_nil_r. }
  split.
  - unfold generate_svf_run.
    destruct (Z.land mode MODE_ERASE =? 0); cbn [negb].
    + eapply runs_eq.
      * repeat svf_step. exact Hloop. cbn [completed]. repeat svf_step.
      * rewrite setup_text_eq. text_eq.
    + eapply runs_eq.
      * repeat svf_step. exact Hloop. cbn [completed]. repeat svf_step.
      * rewrite setup_text_eq, erase_text_eq. text_eq.
  - unfold program_pattern.
    rewrite create_page_pattern_data
      by (cbn [length]; first [apply pattern_ok_uninit|lia]).
    cbn [take fmap list_fmap reverse rev_append]. apply app_nil_r.
Qed.

(** C10: [generate_svf] returns the [int rc] local, which has no
    initialiser. The value returned is 0 when some iteration of the page
    loop ran a program or a verify step, and is that of the unassigned
    variable when none did, as under [MODE_ERASE] alone or under
    [MODE_ERASE | MODE_WRITE] on an image of 0xFF bytes. *)
Theorem generate_svf_return_value (buf : list Z) (len : nat) (addr mode : Z) :
  0 <= addr < 2 ^ 32 ->
  exists (e : loop_end) (w : string),
    runs (generate_svf_run buf len addr mode) e w /\
    result (generate_svf buf len addr mode) = Returns (loop_rc e) /\
    (forall (i : nat) (it : iteration), trace e !! i = Some it ->
       iteration_ok mode buf len addr i it) /\
    (existsb ran (trace e) = false -> loop_rc e = None) /\
    (existsb ran (trace e) = true -> loop_rc e = Some 0) /\
    (mode = MODE_ERASE -> loop_rc e = None) /\
    (mode = Z.lor MODE_ERASE MODE_WRITE ->
     (forall i : nat, (i < len)%nat -> buf !! i = Some 0xFF) ->
     loop_rc e = None).
Proof.
  intros Ha.
  destruct (generate_svf_run_runs buf len addr mode Ha)
    as (tr & Hrun & Hcount & Hpages).
  eexists. eexists. split; [exact Hrun|]. cbn [loop_rc trace].
  split; [exact (runs_result _ _ _ (runs_generate_svf _ _ _ _ _ _ Hrun))|].
  split; [exact Hpages|]. split; [intros ->; reflexivity|].
  split; [intros ->; reflexivity|]. split.
  - intros ->. rewrite existsb_ran_false; [reflexivity|].
    intros i it Hit. destruct (Hpages i it Hit) as (_ & _ & Hp & Hv).
    unfold ran. rewrite Hp, Hv. reflexivity.
  - intros -> Hall. rewrite existsb_ran_false; [reflexivity|].
    intros i it Hit. destruct (Hpages i it Hit) as (Hb & _ & Hp & Hv).
    unfold ran. rewrite Hv, Hp. unfold page_verifies.
    rewrite page_programs_all_ones; [reflexivity|].
    intros k Hk. rewrite lookup_drop. apply Hall. lia.
Qed.

(** * Further properties of the engine *)

(** ** Bit reversal, bit by bit and byte by byte *)

(** X1: whatever the argument, bit [j] of [reverse_bits_8 v] is bit
    [7 - j] of [v] for [j] from 0 to 7 and no other bit is set, and bit [j]
    of [reverse_bits_32 v] is bit [31 - j] of [v] for [j] from 0 to 31; so
    the results fit in 8 and 32 bits and depend on the low 8 and 32 bits
    of the argument only. *)
Theorem reverse_bits_bitwise (v j : Z) :
  Z.testbit (reverse_bits_8 v) j =
    (0 <=? j) && (j <? 8) && Z.testbit v (7 - j) /\
  Z.testbit (reverse_bits_32 v) j =
    (0 <=? j) && (j <? 32) && Z.testbit v (31 - j) /\
  0 <= reverse_bits_8 v < 2 ^ 8 /\
  0 <= reverse_bits_32 v < 2 ^ 32 /\
  reverse_bits_8 (u8 v) = reverse_bits_8 v /\
  reverse_bits_32 (u32 v) = reverse_bits_32 v.
Proof.
  split; [|split; [|split; [|split; [|split]]]].
  - destruct (Z.leb_spec 0 j) as [Hj|Hj].
    + apply reverse_bits_8_testbit. exact Hj.
    + apply Z.testbit_neg_r. exact Hj.
  - destruct (Z.leb_spec 0 j) as [Hj|Hj].
    + apply reverse_bits_32_testbit. exact Hj.
    + apply Z.testbit_neg_r. exact Hj.
  - apply reverse_bits_8_range.
  - apply reverse_bits_32_range.
  - apply Z.bits_inj'. intros i Hi.
    rewrite !reverse_bits_8_testbit by exact Hi.
    destruct (Z.ltb_spec i 8) as [Hlt|Hge]; [|reflexivity]. cbn [andb].
    unfold u8. apply Z.mod_pow2_bits_low. lia.
  - apply Z.bits_inj'. intros i Hi.
    rewrite !reverse_bits_32_testbit by exact Hi.
    destruct (Z.ltb_spec i 32) as [Hlt|Hge]; [|reflexivity]. cbn [andb].
    unfold u32. apply Z.mod_pow2_bits_low. lia.
Qed.

Lemma byte_of_reverse_bits_32 (w k : Z) :
  k = 0 \/ k = 8 \/ k = 16 \/ k = 24 ->
  Z.land (Z.shiftr (reverse_bits_32 w) k) 0xff =
  reverse_bits_8 (Z.land (Z.shiftr w (24 - k)) 0xff).
Proof.
  intros Hk. apply Z.bits_inj'. intros j Hj.
  rewrite reverse_bits_8_testbit by exact Hj. bits_norm.
  destruct (Z.leb_spec 0 j) as [_|Hneg]; [cbn [andb]|lia].
  destruct (Z.ltb_spec j 8) as [Hlt|Hge];
    [|rewrite Bool.andb_false_r; reflexivity].
  rewrite reverse_bits_32_testbit by lia.
  destruct Hk as [->|[->|[->| ->]]]; bits_done.
Qed.

(** X2: the 32-bit reversal is the 8-bit reversal of each of the four
    bytes, the bytes taken in the opposite order. *)
Theorem reverse_bits_32_bytewise (w : Z) :
  be_bytes (reverse_bits_32 w) = reverse_bits_8 <$> le_bytes w.
Proof.
  unfold le_bytes, be_bytes. cbn [reverse rev_append fmap list_fmap].
  rewrite <- (Z.shiftr_0_r (reverse_bits_32 w)) at 4.
  rewrite !byte_of_reverse_bits_32 by lia.
  change (24 - 24) with 0. change (24 - 16) with 8. change (24 - 8) with 16.
  change (24 - 0) with 24. rewrite Z.shiftr_0_r. reflexivity.
Qed.

Lemma reverse_bits_8_twice (v : Z) : reverse_bits_8 (reverse_bits_8 v) = u8 v.
Proof.
  apply Z.bits_inj'. intros j Hj. unfold u8.
  rewrite Z.testbit_mod_pow2 by lia.
  rewrite reverse_bits_8_testbit by exact Hj.
  destruct (Z.ltb_spec j 8) as [Hlt|Hge]; [|reflexivity]. cbn [andb].
  rewrite reverse_bits_8_testbit by lia.
  destruct (Z.ltb_spec (7 - j) 8); [|lia]. cbn [andb]. f_equal. lia.
Qed.

Lemma be_bytes_lor_opcode (x op : Z) :
  0 <= op < 256 ->
  be_bytes (Z.lor x op) =
  [Z.land (Z.shiftr x 24) 0xff; Z.land (Z.shiftr x 16) 0xff;
   Z.land (Z.shiftr x 8) 0xff; Z.lor (Z.land x 0xff) op].
Proof.
  intros Hop. unfold be_bytes.
  assert (Hhigh : forall k, 8 <= k ->
            Z.land (Z.shiftr (Z.lor x op) k) 0xff = Z.land (Z.shiftr x k) 0xff).
  { intros k Hk. apply Z.bits_inj'. intros j Hj. bits_norm.
    destruct (Z.leb_spec 0 j); [cbn [andb]|lia].
    rewrite (testbit_above 8 op (j + k)) by lia.
    rewrite Bool.orb_false_r. reflexivity. }
  rewrite !Hhigh by lia. f_equal. f_equal. f_equal. f_equal.
  apply Z.bits_inj'. intros j Hj. bits_norm.
  destruct (Z.leb_spec 0 j); [cbn [andb]|lia].
  destruct (Z.ltb_spec j 8) as [Hlt|Hge].
  - rewrite !Bool.andb_true_r. reflexivity.
  - rewrite (testbit_above 8 op j) by lia.
    rewrite !Bool.andb_false_r. reflexivity.
Qed.

(** ** The address and opcode field *)

(** X3: for an opcode other than zero, the four bytes of [addr_and_op] in
    memory are, on either byte order, the bit-reversed bytes of the page
    address, least significant address byte first, with the opcode OR'ed
    into the last of them. For a page address below 16 MiB the last byte is
    the opcode alone and reversing the bits of the first three gives the
    address back; for the two verify opcodes that are zero the field is
    zero. *)
Theorem addr_and_op_bytes (pattern : page_pattern) (buf : option (list Z))
    (len : nat) (page_addr op : Z) :
  0 <= op < 256 ->
  let field :=
    u32_object host
      (addr_and_op (create_page_pattern pattern buf len page_addr op).1) in
  let a0 := Z.land page_addr 0xff in
  let a1 := Z.land (Z.shiftr page_addr 8) 0xff in
  let a2 := Z.land (Z.shiftr page_addr 16) 0xff in
  let a3 := Z.land (Z.shiftr page_addr 24) 0xff in
  (op <> 0 ->
   field = [reverse_bits_8 a0; reverse_bits_8 a1; reverse_bits_8 a2;
            Z.lor (reverse_bits_8 a3) op]) /\
  (op <> 0 -> 0 <= page_addr < 2 ^ 24 ->
   Z.lor (reverse_bits_8 a3) op = op /\
   reverse_bits_8 (reverse_bits_8 a0)
   + 2 ^ 8 * reverse_bits_8 (reverse_bits_8 a1)
   + 2 ^ 16 * reverse_bits_8 (reverse_bits_8 a2) = page_addr) /\
  (op = 0 -> field = [0; 0; 0; 0]).
Proof.
  clear fmt_G. intros Hop field a0 a1 a2 a3. subst field.
  rewrite addr_and_op_in_memory.
  change PAGE_OP_VERIFY_TDO with 0. change PAGE_OP_VERIFY_MASK with 0.
  split; [|split].
  - intros Hnz. destruct (Z.eqb_spec op 0) as [Hz|_]; [contradiction|].
    cbn [orb]. rewrite be_bytes_lor_opcode by exact Hop.
    pose proof (reverse_bits_32_bytewise page_addr) as Hbytes.
    unfold le_bytes, be_bytes in Hbytes.
    cbn [reverse rev_append fmap list_fmap] in Hbytes.
    injection Hbytes as H3 H2 H1 H0. rewrite H3, H2, H1, H0. reflexivity.
  - intros _ Ha. subst a0 a1 a2 a3.
    change 0xff with (Z.ones 8). rewrite !Z.land_ones by lia.
    rewrite !reverse_bits_8_twice. unfold u8.
    rewrite !Z.shiftr_div_pow2 by lia.
    rewrite !Z.mod_mod by lia.
    rewrite (Z.div_small page_addr (2 ^ 24)) by exact Ha.
    split; [reflexivity|].
    change (2 ^ 8) with 256. change (2 ^ 16) with 65536.
    change (2 ^ 24) with 16777216 in Ha.
    Z.to_euclidean_division_equations. lia.
  - intros ->. reflexivity.
Qed.

(** ** The page pattern *)

(** X4: with a NULL buffer the length is not looked at: whatever [len] is,
    the pattern is the one of an empty buffer, 256 data bytes 0xFF. *)
Theorem create_page_pattern_null (pattern : page_pattern) (len : nat)
    (page_addr op : Z) :
  length (data pattern) = 256%nat ->
  create_page_pattern pattern None len page_addr op =
    create_page_pattern pattern (Some []) 0 page_addr op /\
  data (create_page_pattern pattern None len page_addr op).1 =
    replicate 256 0xff.
Proof.
  intros Hd. split.
  - unfold create_page_pattern. cbn [default]. reflexivity.
  - apply create_page_pattern_data_null. exact Hd.
Qed.

(** X5: [create_page_pattern] leaves nothing of what the struct held
    before: two structs filled from the same arguments are equal. So in
    [send_page_verify], which fills one local three times, the expected
    data and the mask are what a fresh struct would have given. *)
Theorem create_page_pattern_fresh (p p' : page_pattern) (buf : list Z)
    (len : nat) (page_addr op : Z) :
  length (data p) = 256%nat -> length (data p') = 256%nat ->
  (len <= 256)%nat -> (len <= length buf)%nat ->
  create_page_pattern p (Some buf) len page_addr op =
    create_page_pattern p' (Some buf) len page_addr op /\
  create_page_pattern p None len page_addr op =
    create_page_pattern p' None len page_addr op /\
  verify_tdo_pattern buf len page_addr =
    (create_page_pattern uninit_pattern (Some buf) len page_addr
       PAGE_OP_VERIFY_TDO).1 /\
  verify_mask_pattern buf len page_addr =
    (create_page_pattern uninit_pattern None 0 page_addr
       PAGE_OP_VERIFY_MASK).1.
Proof.
  intros Hp Hp' Hlen Hbuf. split; [|split; [|split]].
  - apply create_page_pattern_overwrites; try assumption.
    intros l Hl. injection Hl as <-. exact Hbuf.
  - apply create_page_pattern_overwrites; try assumption.
    intros l Hl. discriminate Hl.
  - unfold verify_tdo_pattern. f_equal.
    apply create_page_pattern_overwrites;
      [apply pattern_ok_verify_tdi|apply pattern_ok_uninit|exact Hlen|].
    intros l Hl. injection Hl as <-. exact Hbuf.
  - unfold verify_mask_pattern. f_equal.
    apply create_page_pattern_overwrites;
      [apply pattern_ok_verify_tdo|apply pattern_ok_uninit|lia|].
    intros l Hl. discriminate Hl.
Qed.

(** X6: the page can be read back from the pattern: for a page of bytes,
    reversing the bits of the last [len] data bytes, taken from the end of
    the array, gives the [len] bytes of the buffer in order. *)
Theorem create_page_pattern_round_trip (pattern : page_pattern)
    (buf : list Z) (len : nat) (page_addr op : Z) :
  length (data pattern) = 256%nat -> (len <= 256)%nat ->
  (len <= length buf)%nat -> Forall byte_range (take len buf) ->
  reverse_bits_8 <$>
    reverse (drop (256 - len)
               (data (create_page_pattern pattern (Some buf) len page_addr op).1)) =
  take len buf.
Proof.
  intros Hd Hlen Hbuf Hrange.
  rewrite create_page_pattern_data by assumption.
  rewrite drop_app_length' by (rewrite length_replicate; reflexivity).
  rewrite reverse_involutive, <- list_fmap_compose.
  rewrite <- (list_fmap_id (take len buf)) at 2.
  apply Forall_fmap_ext_1. eapply Forall_impl; [exact Hrange|].
  intros b Hb. unfold compose, id. rewrite reverse_bits_8_twice. unfold u8.
  apply Z.mod_small. exact Hb.
Qed.

(** X7: what [send_page_verify] expects to read back is what
    [send_page_program] writes: the TDO pattern has the data bytes of the
    program pattern of the same page, with a zero [addr_and_op]; the TDI
    pattern shifts in 0xFF bytes, whatever the page holds. *)
Theorem verify_expects_programmed (buf : list Z) (len : nat) (addr : Z) :
  (len <= 256)%nat -> (len <= length buf)%nat ->
  data (verify_tdo_pattern buf len addr) = data (program_pattern buf len addr) /\
  addr_and_op (verify_tdo_pattern buf len addr) = 0 /\
  data (verify_tdi_pattern addr) = replicate 256 0xff.
Proof.
  intros Hlen Hbuf. split; [|split].
  - unfold verify_tdo_pattern, program_pattern.
    rewrite !create_page_pattern_data;
      first [assumption|apply pattern_ok_uninit|apply pattern_ok_verify_tdi
            |reflexivity].
  - unfold verify_tdo_pattern, create_page_pattern. cbn [fst addr_and_op].
    change PAGE_OP_VERIFY_TDO with 0. change (0 =? 0) with true.
    cbn [orb]. rewrite htonl_0. reflexivity.
  - unfold verify_tdi_pattern. apply create_page_pattern_data_null.
    apply pattern_ok_uninit.
Qed.

(** ** Hexadecimal dump *)

Lemma hex_value_digit (n : Z) : 0 <= n < 16 -> hex_value (hex_digit n) = Some n.
Proof.
  intros Hn. rewrite <- (Z2Nat.id n) at 2 by lia.
  rewrite <- (Z2Nat.id n) at 1 by lia.
  assert (Hk : (Z.to_nat n < 16)%nat) by lia.
  revert Hk. generalize (Z.to_nat n). intros k Hk.
  do 16 (destruct k as [|k]; [reflexivity|]). lia.
Qed.

Lemma unhex_render (bytes : list Z) :
  Forall byte_range bytes -> unhex (hex_render bytes) = Some bytes.
Proof.
  induction 1 as [|b l Hb _ IH]; [reflexivity|].
  unfold byte_range in Hb. cbn [hex_render]. unfold hex_byte.
  cbn [append unhex]. rewrite !hex_value_digit, IH.
  - f_equal. f_equal. symmetry. apply Z.div_mod. lia.
  - apply Z.mod_pos_bound. lia.
  - split; [apply Z.div_pos; lia|apply Z.div_lt_upper_bound; lia].
Qed.

(** X8: [hexdump] writes the first [len] bytes of the buffer, and nothing
    else, as [2 * len] characters from which the bytes can be read back;
    it writes nothing for [len = 0], and the [uppercase] argument changes
    nothing. *)
Theorem hexdump_round_trip (buf : list Z) (len : nat) (uppercase : bool) :
  (len <= length buf)%nat -> Forall byte_range (take len buf) ->
  result (hexdump buf len uppercase) = Returns tt /\
  unhex (stdout (hexdump buf len uppercase)) = Some (take len buf) /\
  String.length (stdout (hexdump buf len uppercase)) = (2 * len)%nat /\
  hexdump buf len uppercase = hexdump buf len (negb uppercase).
Proof.
  intros Hlen Hrange.
  pose proof (hexdump_take buf len uppercase Hlen Hrange) as Hrun.
  rewrite (runs_stdout _ _ _ Hrun), (runs_result _ _ _ Hrun).
  split; [reflexivity|]. split; [apply unhex_render; exact Hrange|].
  split; [|reflexivity].
  rewrite hex_render_length, length_take. lia.
Qed.

(** ** The page writers and the loop body *)

Lemma scan_all_ones_forallb (buf : list Z) (n i : nat) :
  scan_all_ones buf i n =
  if forallb (fun k => buf !!! k =? 0xFF) (seq i n) then 1 else 0.
Proof.
  revert i. induction n as [|n IH]; intros i; [reflexivity|].
  cbn [scan_all_ones seq forallb].
  destruct (buf !!! i =? 0xFF); cbn [negb andb]; [apply IH|reflexivity].
Qed.

(** X9: the error exits of the page writers and of the loop body are
    never taken: [send_page_program] and [send_page_verify] return 0 on
    every input, and the loop body never leaves by [goto out]. *)
Theorem page_steps_never_fail (buf : list Z) (len : nat) (addr mode : Z)
    (rc0 : option Z) :
  result (send_page_program buf len addr) = Returns 0 /\
  result (send_page_verify buf len addr) = Returns 0 /\
  exists (e : body_end) (w : string),
    runs (page_body buf len addr mode rc0) e w /\ end_goto_out e = false.
Proof.
  split; [exact (runs_result _ _ _ (runs_send_page_program buf len addr))|].
  split; [exact (runs_result _ _ _ (runs_send_page_verify buf len addr))|].
  eexists. eexists. split; [apply runs_page_body|reflexivity].
Qed.

(** X10: what the loop body does with a page, for every mode. The scan
    finds the page all ones exactly when each of its [blen] bytes is 0xFF.
    The page is programmed when [MODE_WRITE] is set and either
    [MODE_ERASE] is clear or some byte is not 0xFF; it is verified when
    [MODE_VERIFY] is set or it was programmed; [rc] is set to 0 when a
    step ran and is left alone otherwise. *)
Theorem page_body_decision (buf : list Z) (blen : nat) (addr mode : Z)
    (rc0 : option Z) :
  let all_ones := forallb (fun k => buf !!! k =? 0xFF) (seq 0 blen) in
  let programs :=
    negb (Z.land mode MODE_WRITE =? 0)
    && ((Z.land mode MODE_ERASE =? 0) || negb all_ones) in
  let verifies := negb (Z.land mode MODE_VERIFY =? 0) || programs in
  scan_all_ones buf 0 blen = (if all_ones then 1 else 0) /\
  runs (page_body buf blen addr mode rc0)
       (BodyEnd false (if verifies then Some 0 else rc0)
                (if programs then 1 else 0) programs verifies)
       ((if programs then stdout (send_page_program buf blen addr)
         else EmptyString) ++
        (if verifies then stdout (send_page_verify buf blen addr)
         else EmptyString)).
Proof.
  intros all_ones programs verifies.
  split; [apply scan_all_ones_forallb|].
  assert (Hp : page_programs mode buf blen = programs).
  { unfold page_programs. rewrite scan_all_ones_forallb. fold all_ones.
    subst programs. destruct all_ones; reflexivity. }
  assert (Hv : page_verifies mode buf blen = verifies).
  { unfold page_verifies. rewrite Hp. reflexivity. }
  rewrite <- Hp, <- Hv. apply runs_page_body.
Qed.

(** ** Runs of [generate_svf] *)

Lemma page_loop_ext (mode mode' : Z) :
  (forall (buf : list Z) (blen : nat) (addr : Z) (rc0 : option Z),
     page_body buf blen addr mode rc0 = page_body buf blen addr mode' rc0) ->
  forall (len : nat) (buf : list Z) (addr : Z) (rc0 : option Z),
    page_loop buf len addr mode rc0 = page_loop buf len addr mode' rc0.
Proof.
  intros Hbody. induction len as [len IH] using lt_wf_ind.
  intros buf addr rc0. rewrite !page_loop_equation_1. cbv zeta.
  set (blen := if (len <? 256)%nat then len else 256%nat).
  assert (Hblen : blen = Nat.min len 256)
    by (subst blen; destruct (Nat.ltb_spec len 256); lia).
  rewrite Hbody. destruct (page_body buf blen addr mode' rc0) as [[e|c] w];
    [|reflexivity].
  unfold mbind, io_bind. destruct (end_goto_out e); [reflexivity|].
  destruct (decide ((len - blen)%nat = 0%nat)) as [Hz|Hnz]; [reflexivity|].
  rewrite IH by lia. reflexivity.
Qed.

Lemma page_body_mode_bits (buf : list Z) (blen : nat) (addr mode : Z)
    (rc0 : option Z) :
  page_body buf blen addr mode rc0 =
  page_body buf blen addr (Z.land mode 7) rc0.
Proof.
  unfold page_body.
  replace (Z.land (Z.land mode 7) MODE_WRITE) with (Z.land mode MODE_WRITE)
    by (rewrite <- Z.land_assoc; reflexivity).
  replace (Z.land (Z.land mode 7) MODE_ERASE) with (Z.land mode MODE_ERASE)
    by (rewrite <- Z.land_assoc; reflexivity).
  replace (Z.land (Z.land mode 7) MODE_VERIFY) with (Z.land mode MODE_VERIFY)
    by (rewrite <- Z.land_assoc; reflexivity).
  reflexivity.
Qed.

(** X11: of [mode], [generate_svf] looks at the three flag bits only: any
    other bit set in it changes neither the output nor the value
    returned. *)
Theorem generate_svf_mode_bits (buf : list Z) (len : nat) (addr mode : Z) :
  generate_svf buf len addr mode = generate_svf buf len addr (Z.land mode 7).
Proof.
  unfold generate_svf, generate_svf_run.
  replace (Z.land (Z.land mode 7) MODE_ERASE) with (Z.land mode MODE_ERASE)
    by (rewrite <- Z.land_assoc; reflexivity).
  rewrite (page_loop_ext mode (Z.land mode 7))
    by (intros; apply page_body_mode_bits).
  reflexivity.
Qed.

Lemma fold_left_ext_in {A B : Type} (f g : A -> B -> A) (l : list B) (a : A) :
  (forall (x : A) (y : B), In y l -> f x y = g x y) ->
  fold_left f l a = fold_left g l a.
Proof.
  revert a. induction l as [|y l IH]; intros a Hfg; [reflexivity|].
  cbn [fold_left]. rewrite (Hfg a y) by (left; reflexivity).
  apply IH. intros x y' Hy'. apply Hfg. right. exact Hy'.
Qed.

Lemma create_page_pattern_take (pattern : page_pattern) (buf : list Z)
    (n len : nat) (page_addr op : Z) :
  (len <= n)%nat ->
  create_page_pattern pattern (Some (take n buf)) len page_addr op =
  create_page_pattern pattern (Some buf) len page_addr op.
Proof.
  intros Hn. unfold create_page_pattern. cbn [default].
  rewrite (fold_left_ext_in
             (fun d i => <[(255 - i)%nat := reverse_bits_8 (take n buf !!! i)]> d)
             (fun d i => <[(255 - i)%nat := reverse_bits_8 (buf !!! i)]> d)).
  - reflexivity.
  - intros d i Hi. apply in_seq in Hi.
    rewrite lookup_total_take_lt by lia. reflexivity.
Qed.

Lemma scan_all_ones_take (buf : list Z) (n m i : nat) :
  (i + m <= n)%nat ->
  scan_all_ones (take n buf) i m = scan_all_ones buf i m.
Proof.
  revert i. induction m as [|m IH]; intros i Hn; [reflexivity|].
  cbn [scan_all_ones]. rewrite lookup_total_take_lt by lia.
  rewrite IH by lia. reflexivity.
Qed.

Lemma send_page_program_take (buf : list Z) (n len : nat) (addr : Z) :
  (len <= n)%nat ->
  send_page_program (take n buf) len addr = send_page_program buf len addr.
Proof.
  intros Hn. unfold send_page_program.
  rewrite create_page_pattern_take by exact Hn. reflexivity.
Qed.

Lemma send_page_verify_take (buf : list Z) (n len : nat) (addr : Z) :
  (len <= n)%nat ->
  send_page_verify (take n buf) len addr = send_page_verify buf len addr.
Proof.
  intros Hn.
  pose proof (runs_send_page_verify (take n buf) len addr) as Htake.
  pose proof (runs_send_page_verify buf len addr) as Hbuf.
  unfold runs in Htake, Hbuf. rewrite Htake, Hbuf.
  unfold verify_mask_pattern, verify_tdo_pattern.
  rewrite create_page_pattern_take by exact Hn. reflexivity.
Qed.

Lemma page_body_take (buf : list Z) (n blen : nat) (addr mode : Z)
    (rc0 : option Z) :
  (blen <= n)%nat ->
  page_body (take n buf) blen addr mode rc0 = page_body buf blen addr mode rc0.
Proof.
  intros Hn. unfold page_body.
  rewrite scan_all_ones_take by lia.
  rewrite send_page_program_take, send_page_verify_take by exact Hn.
  reflexivity.
Qed.

Lemma page_loop_take (mode : Z) (len : nat) :
  forall (buf : list Z) (addr : Z) (rc0 : option Z),
    page_loop (take len buf) len addr mode rc0 =
    page_loop buf len addr mode rc0.
Proof.
  induction len as [len IH] using lt_wf_ind. intros buf addr rc0.
  rewrite !page_loop_equation_1. cbv zeta.
  set (blen := if (len <? 256)%nat then len else 256%nat).
  assert (Hblen : blen = Nat.min len 256)
    by (subst blen; destruct (Nat.ltb_spec len 256); lia).
  rewrite page_body_take by lia.
  destruct (page_body buf blen addr mode rc0) as [[e|c] w]; [|reflexivity].
  unfold mbind, io_bind. destruct (end_goto_out e); [reflexivity|].
  destruct (decide ((len - blen)%nat = 0%nat)) as [Hz|Hnz]; [reflexivity|].
  rewrite skipn_firstn_comm. rewrite IH by lia. reflexivity.
Qed.

(** X12: [generate_svf] reads the first [len] bytes of the buffer and no
    other: what follows them changes neither the output nor the value
    returned. *)
Theorem generate_svf_reads_len_bytes (buf : list Z) (len : nat)
    (addr mode : Z) :
  generate_svf (take len buf) len addr mode = generate_svf buf len addr mode.
Proof.
  unfold generate_svf, generate_svf_run. rewrite page_loop_take. reflexivity.
Qed.

(** X13: in every run, a page that is programmed is verified right after
    ("always verify after write"); nothing is programmed when [MODE_WRITE]
    is clear; every page is verified when [MODE_VERIFY] is set; and with
    both clear no page step runs at all. *)
Theorem verify_follows_program (buf : list Z) (len : nat) (addr mode : Z) :
  0 <= addr < 2 ^ 32 ->
  exists (e : loop_end) (w : string),
    runs (generate_svf_run buf len addr mode) e w /\
    Forall (fun it : iteration =>
              (it_programmed it = true -> it_verified it = true) /\
              (Z.land mode MODE_WRITE = 0 -> it_programmed it = false) /\
              (Z.land mode MODE_VERIFY <> 0 -> it_verified it = true) /\
              (Z.land mode MODE_WRITE = 0 -> Z.land mode MODE_VERIFY = 0 ->
               ran it = false))
           (trace e).
Proof.
  intros Ha.
  destruct (generate_svf_run_runs buf len addr mode Ha)
    as (tr & Hrun & _ & Hpages).
  eexists. eexists. split; [exact Hrun|]. cbn [trace].
  apply Forall_lookup. intros i it Hit.
  destruct (Hpages i it Hit) as (_ & _ & Hp & Hv).
  unfold ran. rewrite Hp, Hv. unfold page_verifies, page_programs.
  repeat split.
  - intros ->. apply Bool.orb_true_r.
  - intros ->. reflexivity.
  - intros Hnz. apply Z.eqb_neq in Hnz. rewrite Hnz. reflexivity.
  - intros -> ->. reflexivity.
Qed.

(** X14: [generate_svf] keeps what [create_page_pattern] asks of its
    callers. For a non-empty image that starts at a multiple of 256 and
    ends within the first 16 MiB, no page is longer than 256 bytes or
    reaches beyond the [len] bytes of the buffer, and every page address
    handed to the page writers is a multiple of 256 below 16 MiB. *)
Theorem page_contract_kept (buf : list Z) (len : nat) (addr mode : Z) :
  (0 < len)%nat -> 0 <= addr -> addr mod 256 = 0 ->
  addr + Z.of_nat len <= 2 ^ 24 ->
  exists (e : loop_end) (w : string),
    runs (generate_svf_run buf len addr mode) e w /\
    forall (i : nat) (it : iteration), trace e !! i = Some it ->
      (it_blen it <= 256)%nat /\
      (256 * i + it_blen it <= len)%nat /\
      it_addr it = addr + 256 * Z.of_nat i /\
      it_addr it mod 256 = 0 /\
      0 <= it_addr it < 2 ^ 24.
Proof.
  intros Hlen Ha Halign Hfit.
  assert (Ha32 : 0 <= addr < 2 ^ 32) by lia.
  destruct (generate_svf_run_runs buf len addr mode Ha32)
    as (tr & Hrun & Hcount & Hpages).
  eexists. eexists. split; [exact Hrun|]. cbn [trace].
  intros i it Hit. destruct (Hpages i it Hit) as (Hb & Hadr & _).
  assert (Hi : (256 * i < len)%nat).
  { apply lookup_lt_Some in Hit. rewrite Hcount in Hit.
    pose proof (Nat.div_mod_eq (len + 255) 256) as Hdm.
    pose proof (Nat.mod_upper_bound (len + 255) 256 ltac:(lia)). lia. }
  assert (Hadr' : it_addr it = addr + 256 * Z.of_nat i).
  { rewrite Hadr. unfold u32. apply Z.mod_small. lia. }
  split; [lia|]. split; [lia|]. split; [exact Hadr'|]. split; [|lia].
  rewrite Hadr'.
  replace (addr + 256 * Z.of_nat i) with (addr + Z.of_nat i * 256) by lia.
  rewrite Z.mod_add by lia. exact Halign.
Qed.


Lemma trace_text_idle (tr : list iteration) :
  Forall (fun it : iteration => ran it = false) tr ->
  forall buf : list Z, trace_text buf tr = EmptyString.
Proof.
  induction 1 as [|it tr Hit _ IH]; intros buf; [reflexivity|].
  cbn [trace_text]. unfold ran in Hit.
  apply Bool.orb_false_iff in Hit as [-> ->]. apply IH.
Qed.

(** X16: when no page needs a step the output has no page block at all:
    under [MODE_ERASE] alone, whatever the image holds, and under
    [MODE_ERASE | MODE_WRITE], the mode [main] passes, for an image of
    0xFF bytes, the output is the reset, unlock and erase sequences
    followed at once by [TRST ON;]. *)
Theorem erased_image_output (buf : list Z) (len : nat) (addr mode : Z) :
  0 <= addr < 2 ^ 32 ->
  mode = MODE_ERASE \/
  (mode = Z.lor MODE_ERASE MODE_WRITE /\
   forall i : nat, (i < len)%nat -> buf !! i = Some 0xFF) ->
  stdout (generate_svf buf len addr mode) =
    (stdout (trst 0) ++ setup_text ++ erase_text ++ stdout (trst 1))%string /\
  result (generate_svf buf len addr mode) = Returns None.
Proof.
  intros Ha Hcase.
  destruct (generate_svf_run_runs buf len addr mode Ha)
    as (tr & Hrun & _ & Hpages).
  assert (Hidle : Forall (fun it : iteration => ran it = false) tr).
  { apply Forall_lookup. intros i it Hit.
    destruct (Hpages i it Hit) as (Hb & _ & Hp & Hv).
    unfold ran. rewrite Hv, Hp. unfold page_verifies.
    destruct Hcase as [->|[-> Hall]]; [reflexivity|].
    rewrite page_programs_all_ones; [reflexivity|].
    intros k Hk. rewrite lookup_drop. apply Hall. lia. }
  assert (Herase : negb (Z.land mode MODE_ERASE =? 0) = true)
    by (destruct Hcase as [->|[-> _]]; reflexivity).
  apply runs_generate_svf in Hrun. cbn [loop_rc] in Hrun.
  rewrite (runs_stdout _ _ _ Hrun), (runs_result _ _ _ Hrun).
  rewrite Herase, (trace_text_idle tr Hidle).
  rewrite (existsb_ran_false tr).
  - split; reflexivity.
  - intros i it Hit. exact (proj1 (Forall_lookup _ _) Hidle i it Hit).
Qed.

End Engine.

(** * The properties on concrete runs

    The runs below are those of a little-endian machine with [%G] rendered
    by [fmt_G_decimal]. *)

Lemma reverse_bits_involutive_witness :
  (0 <= 0x2c < 2 ^ 8 /\ 0 <= 0x800100 < 2 ^ 32) /\
  reverse_bits_8 (reverse_bits_8 0x2c) = 0x2c /\
  reverse_bits_32 (reverse_bits_32 0x800100) = 0x800100.
Proof.
  split; [lia|]. apply (reverse_bits_involutive 0x2c 0x800100); lia.
Defined.

Lemma addr_and_op_no_collision_witness :
  (0 <= 0x800100 < 2 ^ 24 /\ 0x800100 mod 256 = 0) /\
  Z.land (htonl LittleEndian (reverse_bits_32 0x800100))
         (htonl LittleEndian PAGE_OP_VERIFY_TDI) = 0 /\
  Z.lor (htonl LittleEndian (reverse_bits_32 0x800100))
        (htonl LittleEndian PAGE_OP_VERIFY_TDI) =
  htonl LittleEndian (reverse_bits_32 0x800100) +
  htonl LittleEndian PAGE_OP_VERIFY_TDI.
Proof.
  split; [split; [lia|reflexivity]|].
  apply (addr_and_op_no_collision LittleEndian 0x800100 PAGE_OP_VERIFY_TDI);
    [lia|reflexivity|right; left; reflexivity].
Defined.

Lemma create_page_pattern_spec_witness :
  (length (data uninit_pattern) = 256%nat /\ (2 <= 256)%nat /\
   (2 <= length [0x01; 0x02])%nat) /\
  let p := (create_page_pattern LittleEndian uninit_pattern
              (Some [0x01; 0x02]) 2 0x800000 PAGE_OP_PROGRAM_TDI).1 in
  let address :=
    if (PAGE_OP_PROGRAM_TDI =? PAGE_OP_VERIFY_TDO)
       || (PAGE_OP_PROGRAM_TDI =? PAGE_OP_VERIFY_MASK) then 0
    else reverse_bits_32 0x800000 in
  length (data p) = 256%nat /\
  (forall (i : nat) (b : Z), (i < 2)%nat -> [0x01; 0x02] !! i = Some b ->
     data p !! (255 - i)%nat = Some (reverse_bits_8 b)) /\
  (forall j : nat, (j + 2 <= 255)%nat -> data p !! j = Some 0xff) /\
  addr_and_op p =
    Z.lor (htonl LittleEndian address) (htonl LittleEndian PAGE_OP_PROGRAM_TDI) /\
  u32_object LittleEndian (addr_and_op p) =
    be_bytes (Z.lor address PAGE_OP_PROGRAM_TDI).
Proof.
  split; [split; [reflexivity|split; simpl; lia]|].
  apply (create_page_pattern_spec LittleEndian uninit_pattern [0x01; 0x02] 2
           0x800000 PAGE_OP_PROGRAM_TDI); [reflexivity|lia|simpl; lia].
Defined.

Lemma trst_off_first_on_last_witness :
  0 <= 0x800000 < 2 ^ 32 /\
  first_line (stdout (generate_svf LittleEndian fmt_G_decimal [0x12; 0x34] 2
                        0x800000 (Z.lor MODE_ERASE MODE_WRITE))) =
    Some "TRST OFF;"%string /\
  final_line (stdout (generate_svf LittleEndian fmt_G_decimal [0x12; 0x34] 2
                        0x800000 (Z.lor MODE_ERASE MODE_WRITE))) =
    Some "TRST ON;"%string /\
  (exists rc : option Z,
     result (generate_svf LittleEndian fmt_G_decimal [0x12; 0x34] 2 0x800000
               (Z.lor MODE_ERASE MODE_WRITE)) = Returns rc) /\
  stdout (trst 0) = ("TRST OFF;" ++ nl ++ nl)%string /\
  stdout (trst 1) = ("TRST ON;" ++ nl ++ nl)%string /\
  (forall on : Z, on <> 0 -> stdout (trst on) = ("TRST ON;" ++ nl ++ nl)%string).
Proof.
  split; [lia|].
  apply (trst_off_first_on_last LittleEndian fmt_G_decimal [0x12; 0x34] 2
           0x800000 (Z.lor MODE_ERASE MODE_WRITE)); lia.
Defined.

(** C1 as the specification words it fails on a two-byte image: the output
    does not start with [TRST ON;]. *)
Lemma trst_on_first_counterexample :
  ~ (first_line (stdout (generate_svf LittleEndian fmt_G_decimal [0x12; 0x34] 2
                           0x800000 (Z.lor MODE_ERASE MODE_WRITE))) =
       Some "TRST ON;"%string /\
     final_line (stdout (generate_svf LittleEndian fmt_G_decimal [0x12; 0x34] 2
                           0x800000 (Z.lor MODE_ERASE MODE_WRITE))) =
       Some "TRST OFF;"%string).
Proof.
  intros [Hfirst _]. vm_compute in Hfirst. discriminate Hfirst.
Qed.

(** C2 as the specification words it fails on a one-byte page: the data
    bytes of the mask pattern are not zero. *)
Lemma verify_mask_zero_counterexample :
  ~ Forall (fun b : Z => b = 0)
      (data (verify_mask_pattern LittleEndian [0x12] 1 0x800000)).
Proof.
  intros Hzero. vm_compute in Hzero. inversion Hzero as [|b l Hb _].
  discriminate Hb.
Qed.

Lemma write_skip_witness :
  (forall i : nat, (i < 256)%nat -> replicate 256 0xFF !! i = Some 0xFF) /\
  runs (page_body LittleEndian fmt_G_decimal (replicate 256 0xFF) 256 0x800000
          (Z.lor MODE_ERASE MODE_WRITE) None)
       (BodyEnd false None 0 false false) EmptyString /\
  runs (page_body LittleEndian fmt_G_decimal (replicate 256 0xFF) 256 0x800000
          (Z.lor (Z.lor MODE_ERASE MODE_WRITE) MODE_VERIFY) None)
       (BodyEnd false (Some 0) 0 false true)
       (stdout (send_page_verify LittleEndian (replicate 256 0xFF) 256 0x800000)) /\
  runs (page_body LittleEndian fmt_G_decimal (replicate 256 0xFF) 256 0x800000
          MODE_WRITE None)
       (BodyEnd false (Some 0) 1 true true)
       (stdout (send_page_program LittleEndian fmt_G_decimal
                  (replicate 256 0xFF) 256 0x800000) ++
        stdout (send_page_verify LittleEndian (replicate 256 0xFF) 256 0x800000)).
Proof.
  assert (Hpage : forall i : nat,
             (i < 256)%nat -> replicate 256 0xFF !! i = Some 0xFF)
    by (intros i Hi; apply lookup_replicate_2; exact Hi).
  split; [exact Hpage|].
  exact (write_skip LittleEndian fmt_G_decimal (replicate 256 0xFF) 256
           0x800000 None Hpage).
Defined.



Lemma generate_svf_return_value_witness :
  0 <= 0x800000 < 2 ^ 32 /\
  exists (e : loop_end) (w : string),
    runs (generate_svf_run LittleEndian fmt_G_decimal [0xFF; 0xFF] 2 0x800000
            (Z.lor MODE_ERASE MODE_WRITE)) e w /\
    result (generate_svf LittleEndian fmt_G_decimal [0xFF; 0xFF] 2 0x800000
              (Z.lor MODE_ERASE MODE_WRITE)) = Returns (loop_rc e) /\
    (forall (i : nat) (it : iteration), trace e !! i = Some it ->
       iteration_ok (Z.lor MODE_ERASE MODE_WRITE) [0xFF; 0xFF] 2 0x800000 i it) /\
    (existsb ran (trace e) = false -> loop_rc e = None) /\
    (existsb ran (trace e) = true -> loop_rc e = Some 0) /\
    (Z.lor MODE_ERASE MODE_WRITE = MODE_ERASE -> loop_rc e = None) /\
    (Z.lor MODE_ERASE MODE_WRITE = Z.lor MODE_ERASE MODE_WRITE ->
     (forall i : nat, (i < 2)%nat -> [0xFF; 0xFF] !! i = Some 0xFF) ->
     loop_rc e = None).
Proof.
  split; [lia|].
  apply (generate_svf_return_value LittleEndian fmt_G_decimal [0xFF; 0xFF] 2
           0x800000 (Z.lor MODE_ERASE MODE_WRITE)); lia.
Defined.

(** ** The examples of the specification *)

Example reverse_bits_8_examples :
  reverse_bits_8 0x01 = 0x80 /\ reverse_bits_8 0x02 = 0x40 /\
  reverse_bits_8 0x00 = 0x00 /\ reverse_bits_32 0x800000 = 0x100.
Proof. vm_compute. repeat split. Qed.

Example program_pattern_two_bytes :
  data (program_pattern LittleEndian [0x01; 0x02] 2 0x800000) =
  replicate 254 0xff ++ [0x40; 0x80].
Proof. vm_compute. reflexivity. Qed.

Example unassigned_rc_under_erase :
  result (generate_svf LittleEndian fmt_G_decimal [0x00] 1 0x800000 MODE_ERASE) =
  Returns None.
Proof. vm_compute. reflexivity. Qed.

Example zero_page_write_verify :
  result (generate_svf_run LittleEndian fmt_G_decimal (replicate 256 0) 256 0
            (Z.lor MODE_WRITE MODE_VERIFY)) =
  Returns (LoopEnd true (Some 0) [Iteration 0 256 true true]) /\
  data (program_pattern LittleEndian (replicate 256 0) 256 0) = replicate 256 0.
Proof. vm_compute. split; reflexivity. Qed.

(** ** Further properties on concrete inputs *)

Lemma addr_and_op_bytes_witness :
  0 <= PAGE_OP_PROGRAM_TDI < 256 /\
  let field :=
    u32_object LittleEndian
      (addr_and_op (create_page_pattern LittleEndian uninit_pattern
                      (Some [0x12]) 1 0x801200 PAGE_OP_PROGRAM_TDI).1) in
  let a0 := Z.land 0x801200 0xff in
  let a1 := Z.land (Z.shiftr 0x801200 8) 0xff in
  let a2 := Z.land (Z.shiftr 0x801200 16) 0xff in
  let a3 := Z.land (Z.shiftr 0x801200 24) 0xff in
  (PAGE_OP_PROGRAM_TDI <> 0 ->
   field = [reverse_bits_8 a0; reverse_bits_8 a1; reverse_bits_8 a2;
            Z.lor (reverse_bits_8 a3) PAGE_OP_PROGRAM_TDI]) /\
  (PAGE_OP_PROGRAM_TDI <> 0 -> 0 <= 0x801200 < 2 ^ 24 ->
   Z.lor (reverse_bits_8 a3) PAGE_OP_PROGRAM_TDI = PAGE_OP_PROGRAM_TDI /\
   reverse_bits_8 (reverse_bits_8 a0)
   + 2 ^ 8 * reverse_bits_8 (reverse_bits_8 a1)
   + 2 ^ 16 * reverse_bits_8 (reverse_bits_8 a2) = 0x801200) /\
  (PAGE_OP_PROGRAM_TDI = 0 -> field = [0; 0; 0; 0]).
Proof.
  split; [unfold PAGE_OP_PROGRAM_TDI; lia|].
  apply (addr_and_op_bytes LittleEndian uninit_pattern (Some [0x12]) 1
           0x801200 PAGE_OP_PROGRAM_TDI).
  unfold PAGE_OP_PROGRAM_TDI. lia.
Defined.

Lemma create_page_pattern_null_witness :
  length (data uninit_pattern) = 256%nat /\
  create_page_pattern LittleEndian uninit_pattern None 7 0x800000
    PAGE_OP_VERIFY_TDI =
  create_page_pattern LittleEndian uninit_pattern (Some []) 0 0x800000
    PAGE_OP_VERIFY_TDI /\
  data (create_page_pattern LittleEndian uninit_pattern None 7 0x800000
          PAGE_OP_VERIFY_TDI).1 = replicate 256 0xff.
Proof.
  split; [reflexivity|].
  apply (create_page_pattern_null LittleEndian uninit_pattern 7 0x800000
           PAGE_OP_VERIFY_TDI). reflexivity.
Defined.

Lemma create_page_pattern_fresh_witness :
  (length (data uninit_pattern) = 256%nat /\
   length (data (PagePattern (replicate 256 0x5a) 7)) = 256%nat /\
   (2 <= 256)%nat /\ (2 <= length [0x12; 0x34])%nat) /\
  create_page_pattern LittleEndian uninit_pattern (Some [0x12; 0x34]) 2
    0x800000 PAGE_OP_PROGRAM_TDI =
  create_page_pattern LittleEndian (PagePattern (replicate 256 0x5a) 7)
    (Some [0x12; 0x34]) 2 0x800000 PAGE_OP_PROGRAM_TDI /\
  create_page_pattern LittleEndian uninit_pattern None 2 0x800000
    PAGE_OP_PROGRAM_TDI =
  create_page_pattern LittleEndian (PagePattern (replicate 256 0x5a) 7)
    None 2 0x800000 PAGE_OP_PROGRAM_TDI /\
  verify_tdo_pattern LittleEndian [0x12; 0x34] 2 0x800000 =
    (create_page_pattern LittleEndian uninit_pattern (Some [0x12; 0x34]) 2
       0x800000 PAGE_OP_VERIFY_TDO).1 /\
  verify_mask_pattern LittleEndian [0x12; 0x34] 2 0x800000 =
    (create_page_pattern LittleEndian uninit_pattern None 0 0x800000
       PAGE_OP_VERIFY_MASK).1.
Proof.
  split; [repeat split; cbn [length]; lia|].
  apply (create_page_pattern_fresh LittleEndian uninit_pattern
           (PagePattern (replicate 256 0x5a) 7) [0x12; 0x34] 2 0x800000
           PAGE_OP_PROGRAM_TDI);
    [reflexivity|reflexivity|lia|cbn [length]; lia].
Defined.

Lemma create_page_pattern_round_trip_witness :
  (length (data uninit_pattern) = 256%nat /\ (2 <= 256)%nat /\
   (2 <= length [0x12; 0x34; 0x56])%nat /\
   Forall byte_range (take 2 [0x12; 0x34; 0x56])) /\
  reverse_bits_8 <$>
    reverse (drop (256 - 2)
               (data (create_page_pattern LittleEndian uninit_pattern
                        (Some [0x12; 0x34; 0x56]) 2 0x800000
                        PAGE_OP_PROGRAM_TDI).1)) =
  take 2 [0x12; 0x34; 0x56].
Proof.
  assert (Hrange : Forall byte_range (take 2 [0x12; 0x34; 0x56]))
    by (repeat constructor; unfold byte_range; lia).
  split; [split; [reflexivity|split; [lia|split; [cbn [length]; lia|exact Hrange]]]|].
  apply (create_page_pattern_round_trip LittleEndian uninit_pattern
           [0x12; 0x34; 0x56] 2 0x800000 PAGE_OP_PROGRAM_TDI);
    [reflexivity|lia|cbn [length]; lia|exact Hrange].
Defined.

Lemma verify_expects_programmed_witness :
  ((2 <= 256)%nat /\ (2 <= length [0x12; 0x34])%nat) /\
  data (verify_tdo_pattern LittleEndian [0x12; 0x34] 2 0x800000) =
    data (program_pattern LittleEndian [0x12; 0x34] 2 0x800000) /\
  addr_and_op (verify_tdo_pattern LittleEndian [0x12; 0x34] 2 0x800000) = 0 /\
  data (verify_tdi_pattern LittleEndian 0x800000) = replicate 256 0xff.
Proof.
  split; [split; [lia|cbn [length]; lia]|].
  apply (verify_expects_programmed LittleEndian [0x12; 0x34] 2 0x800000);
    [lia|cbn [length]; lia].
Defined.

Lemma hexdump_round_trip_witness :
  ((2 <= length [0x12; 0xab; 0xff])%nat /\
   Forall byte_range (take 2 [0x12; 0xab; 0xff])) /\
  result (hexdump [0x12; 0xab; 0xff] 2 true) = Returns tt /\
  unhex (stdout (hexdump [0x12; 0xab; 0xff] 2 true)) =
    Some (take 2 [0x12; 0xab; 0xff]) /\
  String.length (stdout (hexdump [0x12; 0xab; 0xff] 2 true)) = (2 * 2)%nat /\
  hexdump [0x12; 0xab; 0xff] 2 true = hexdump [0x12; 0xab; 0xff] 2 (negb true).
Proof.
  assert (Hrange : Forall byte_range (take 2 [0x12; 0xab; 0xff]))
    by (repeat constructor; unfold byte_range; lia).
  split; [split; [cbn [length]; lia|exact Hrange]|].
  apply (hexdump_round_trip [0x12; 0xab; 0xff] 2 true);
    [cbn [length]; lia|exact Hrange].
Defined.

Lemma verify_follows_program_witness :
  0 <= 0x800000 < 2 ^ 32 /\
  exists (e : loop_end) (w : string),
    runs (generate_svf_run LittleEndian fmt_G_decimal [0x12; 0x34] 2 0x800000
            MODE_WRITE) e w /\
    Forall (fun it : iteration =>
              (it_programmed it = true -> it_verified it = true) /\
              (Z.land MODE_WRITE MODE_WRITE = 0 -> it_programmed it = false) /\
              (Z.land MODE_WRITE MODE_VERIFY <> 0 -> it_verified it = true) /\
              (Z.land MODE_WRITE MODE_WRITE = 0 ->
               Z.land MODE_WRITE MODE_VERIFY = 0 -> ran it = false))
           (trace e).
Proof.
  split; [lia|].
  apply (verify_follows_program LittleEndian fmt_G_decimal [0x12; 0x34] 2
           0x800000 MODE_WRITE). lia.
Defined.

Lemma page_contract_kept_witness :
  ((0 < 600)%nat /\ 0 <= 0x800000 /\
   0x800000 mod 256 = 0 /\ 0x800000 + Z.of_nat 600 <= 2 ^ 24) /\
  exists (e : loop_end) (w : string),
    runs (generate_svf_run LittleEndian fmt_G_decimal (replicate 600 0x5a) 600
            0x800000 (Z.lor MODE_ERASE MODE_WRITE)) e w /\
    forall (i : nat) (it : iteration), trace e !! i = Some it ->
      (it_blen it <= 256)%nat /\
      (256 * i + it_blen it <= 600)%nat /\
      it_addr it = 0x800000 + 256 * Z.of_nat i /\
      it_addr it mod 256 = 0 /\
      0 <= it_addr it < 2 ^ 24.
Proof.
  split; [split; [lia|split; [lia|split; [reflexivity|lia]]]|].
  apply (page_contract_kept LittleEndian fmt_G_decimal (replicate 600 0x5a)
           600 0x800000 (Z.lor MODE_ERASE MODE_WRITE));
    [lia|lia|reflexivity|lia].
Defined.


Lemma erased_image_output_witness :
  (0 <= 0x800000 < 2 ^ 32 /\
   (Z.lor MODE_ERASE MODE_WRITE = MODE_ERASE \/
    (Z.lor MODE_ERASE MODE_WRITE = Z.lor MODE_ERASE MODE_WRITE /\
     forall i : nat, (i < 300)%nat -> replicate 300 0xFF !! i = Some 0xFF))) /\
  stdout (generate_svf LittleEndian fmt_G_decimal (replicate 300 0xFF) 300
            0x800000 (Z.lor MODE_ERASE MODE_WRITE)) =
    (stdout (trst 0) ++ setup_text fmt_G_decimal ++ erase_text fmt_G_decimal ++
     stdout (trst 1))%string /\
  result (generate_svf LittleEndian fmt_G_decimal (replicate 300 0xFF) 300
            0x800000 (Z.lor MODE_ERASE MODE_WRITE)) = Returns None.
Proof.
  assert (Himage : forall i : nat,
             (i < 300)%nat -> replicate 300 0xFF !! i = Some 0xFF)
    by (intros i Hi; apply lookup_replicate_2; exact Hi).
  split; [split; [lia|right; split; [reflexivity|exact Himage]]|].
  apply (erased_image_output LittleEndian fmt_G_decimal (replicate 300 0xFF)
           300 0x800000 (Z.lor MODE_ERASE MODE_WRITE));
    [lia|right; split; [reflexivity|exact Himage]].
Defined.
